(** * HomePage.tsx: search orchestration, paging and rendering helpers

    A shallow embedding of the logic of [src/pages/HomePage.tsx]: the two
    search handlers [fetchCityNews] and [fetchGlobalNews], the article
    normalisation they share, the paging arithmetic of the renderer, the
    description truncation and [formatDate].

    JavaScript strings are sequences of UTF-16 code units, component state
    is a record threaded through a small state-and-exception monad, and the
    network is an oracle that answers each request with a response or with
    a rejection. The timing of the debounced autocomplete and the layout
    of the JSX tree are not part of this development. *)

From Stdlib Require Import ZArith NArith List Lia Bool.
From stdpp Require Import base gmap strings list.

Local Open Scope Z_scope.
Set Warnings "-register-all".


(** ** JavaScript strings *)

(** A string value: its UTF-16 code units, in order. *)
Abbreviation jsstring := (list N).

(** An ASCII literal of the source text as a string value. *)
Definition lit (s : string) : jsstring :=
  map (fun a => N.of_nat (Ascii.nat_of_ascii a)) (String.list_ascii_of_string s).

Definition comma : N := 44%N.

(** [s.length] *)
Definition str_length (s : jsstring) : Z := Z.of_nat (length s).

(** Truthiness of a string value: only the empty string is falsy. *)
Definition str_truthy (s : jsstring) : bool :=
  match s with [] => false | _ :: _ => true end.

(** [a === b] on two strings. *)
Definition str_eq (a b : jsstring) : bool := bool_decide (a = b).

(** WhiteSpace and LineTerminator code points (ECMA-262, 12.2 and 12.3),
    the characters [String.prototype.trim] strips. *)
Definition is_whitespace (c : N) : bool :=
  ((9 <=? c) && (c <=? 13) || (c =? 32) || (c =? 160) || (c =? 5760)
   || (8192 <=? c) && (c <=? 8202) || (c =? 8232) || (c =? 8233)
   || (c =? 8239) || (c =? 8287) || (c =? 12288) || (c =? 65279))%N.

Fixpoint trim_start (s : jsstring) : jsstring :=
  match s with
  | [] => []
  | c :: rest => if is_whitespace c then trim_start rest else s
  end.

(** [s.trim()] *)
Definition trim (s : jsstring) : jsstring :=
  rev (trim_start (rev (trim_start s))).

(** [s.includes(',')], for a one-unit search string. *)
Definition includes (s : jsstring) (c : N) : bool :=
  existsb (N.eqb c) s.

(** [s.split(',')], for a one-unit separator: the pieces between the
    separators, always at least one piece. *)
Fixpoint split (s : jsstring) (sep : N) : list jsstring :=
  match s with
  | [] => [[]]
  | c :: rest =>
      if (c =? sep)%N then [] :: split rest sep
      else match split rest sep with
           | [] => [[c]]
           | piece :: pieces => (c :: piece) :: pieces
           end
  end.

(** [s.substring(a, b)]: both indices are clamped to [0, s.length] and
    swapped when out of order. *)
Definition substring (s : jsstring) (a b : Z) : jsstring :=
  let len := str_length s in
  let a' := Z.min (Z.max a 0) len in
  let b' := Z.min (Z.max b 0) len in
  let from := Z.min a' b' in
  let to := Z.max a' b' in
  firstn (Z.to_nat (to - from)) (skipn (Z.to_nat from) s).

(** Decimal digits of a non-negative integer Number, as a template
    literal prints it. *)
Fixpoint uint_units (d : Decimal.uint) : jsstring :=
  match d with
  | Decimal.Nil => []
  | Decimal.D0 d => 48%N :: uint_units d
  | Decimal.D1 d => 49%N :: uint_units d
  | Decimal.D2 d => 50%N :: uint_units d
  | Decimal.D3 d => 51%N :: uint_units d
  | Decimal.D4 d => 52%N :: uint_units d
  | Decimal.D5 d => 53%N :: uint_units d
  | Decimal.D6 d => 54%N :: uint_units d
  | Decimal.D7 d => 55%N :: uint_units d
  | Decimal.D8 d => 56%N :: uint_units d
  | Decimal.D9 d => 57%N :: uint_units d
  end.

Definition Number_toString (n : N) : jsstring := uint_units (N.to_uint n).

(** ** Arrays *)

(** [arr.slice(start, end)]: a negative index counts from the end, both
    are clamped to [0, arr.length], and the result is a fresh array. *)
Definition slice {A : Type} (arr : list A) (start end_ : Z) : list A :=
  let len := Z.of_nat (length arr) in
  let k := if start <? 0 then Z.max (len + start) 0 else Z.min start len in
  let final := if end_ <? 0 then Z.max (len + end_) 0 else Z.min end_ len in
  firstn (Z.to_nat (Z.max (final - k) 0)) (skipn (Z.to_nat k) arr).

(** [Math.ceil(n / d)] for a non-negative integer [n] and a positive
    integer [d]: the double quotient rounds to the nearest double, which
    never crosses an integer, so its ceiling is the ceiling of the exact
    quotient. *)
Definition Math_ceil_div (n d : Z) : Z := - ((- n) / d).

(** ** Promises and exceptions *)

(** How an awaited promise, or a call that may throw, ends. The thrown
    value is dropped: no handler in the component inspects it. *)
Inductive outcome (A : Type) : Type :=
| Resolved (a : A)
| Rejected.

Arguments Resolved {A} a.
Arguments Rejected {A}.

(** ** Values received from the API *)

(** A value as [response.json()] yields it; only the truthiness of a
    number is observed, so numbers are kept as integers. *)
Inductive JValue : Type :=
| JUndefined
| JNull
| JBool (b : bool)
| JNum (n : Z)
| JStr (s : jsstring)
| JArr (items : list JValue)
| JObj (fields : list (string * JValue)).

(** ToBoolean *)
Definition truthy (v : JValue) : bool :=
  match v with
  | JUndefined | JNull => false
  | JBool b => b
  | JNum n => negb (n =? 0)
  | JStr s => str_truthy s
  | JArr _ | JObj _ => true
  end.

(** [a || b] *)
Definition js_or (a b : JValue) : JValue := if truthy a then a else b.

(** An article object as received ([article: any]): its own properties. *)
Abbreviation Article := (gmap string JValue).

(** [article.key]: a missing property reads as [undefined]. *)
Definition prop (article : Article) (key : string) : JValue :=
  default JUndefined (article !! key).

(** [{ ...article, publishedAt: article.publishedAtString || article.publishedAt }] *)
Definition normalizeArticle (article : Article) : Article :=
  <["publishedAt" := js_or (prop article "publishedAtString") (prop article "publishedAt")]> article.

Record CityDto : Type := {
  id : jsstring;
  city : jsstring;
  stateName : jsstring;
  countyName : jsstring;
  lat : jsstring;
  lng : jsstring;
  population : option Z;
  timezone : jsstring
}.

(** A fetch [Response] whose body, read by [json()], has type [B].
    [json] is [Rejected] when the body cannot be read as a [B]: [json()]
    rejects on a body that is not JSON, and a value that is not an array
    makes the [data.map] that follows throw; both happen inside the
    handler's [try] block and reach the same [catch]. *)
Record Response (B : Type) : Type := {
  status : N;
  statusText : jsstring;
  json : outcome B
}.

Arguments status {B} r.
Arguments statusText {B} r.
Arguments json {B} r.

(** [response.ok]: the status is in the range 200-299. *)
Definition ok {B : Type} (r : Response B) : bool :=
  ((200 <=? status r) && (status r <=? 299))%N.

(** ** Component state *)

Definition ARTICLES_PER_PAGE : Z := 10.

(** The [useState] cells of [HomePage]. *)
Record State : Type := {
  searchQuery : jsstring;
  cityOptions : list jsstring;
  news : list Article;
  cityInfo : option CityDto;
  error : option jsstring;
  loading : bool;
  loadingCities : bool;
  currentPage : Z
}.

Definition initialState : State :=
  {| searchQuery := []; cityOptions := []; news := []; cityInfo := None;
     error := None; loading := false; loadingCities := false; currentPage := 1 |}.

Definition with_news (v : list Article) (st : State) : State :=
  {| searchQuery := searchQuery st; cityOptions := cityOptions st; news := v;
     cityInfo := cityInfo st; error := error st; loading := loading st;
     loadingCities := loadingCities st; currentPage := currentPage st |}.

Definition with_cityInfo (v : option CityDto) (st : State) : State :=
  {| searchQuery := searchQuery st; cityOptions := cityOptions st; news := news st;
     cityInfo := v; error := error st; loading := loading st;
     loadingCities := loadingCities st; currentPage := currentPage st |}.

Definition with_error (v : option jsstring) (st : State) : State :=
  {| searchQuery := searchQuery st; cityOptions := cityOptions st; news := news st;
     cityInfo := cityInfo st; error := v; loading := loading st;
     loadingCities := loadingCities st; currentPage := currentPage st |}.

Definition with_loading (v : bool) (st : State) : State :=
  {| searchQuery := searchQuery st; cityOptions := cityOptions st; news := news st;
     cityInfo := cityInfo st; error := error st; loading := v;
     loadingCities := loadingCities st; currentPage := currentPage st |}.

Definition with_currentPage (v : Z) (st : State) : State :=
  {| searchQuery := searchQuery st; cityOptions := cityOptions st; news := news st;
     cityInfo := cityInfo st; error := error st; loading := loading st;
     loadingCities := loadingCities st; currentPage := v |}.

(** ** The handlers' effects *)

(** A network request as the handlers issue it (every request is a GET
    with [credentials: 'include']), with the component state at that point
    of the handler: the state the setter calls made so far add up to, as
    React shows it at the next render. *)
Record Call : Type := {
  call_url : jsstring;
  call_state : State
}.

(** What a handler acts on: the component state and the requests issued
    so far, oldest first. *)
Record World : Type := {
  comp : State;
  calls : list Call
}.

(** A step of an async handler: it resolves with a value or throws, and
    leaves a world behind either way. *)
Definition Eff (A : Type) : Type := World -> outcome A * World.

Definition ret {A : Type} (a : A) : Eff A := fun w => (Resolved a, w).

Definition bind {A B : Type} (m : Eff A) (k : A -> Eff B) : Eff B :=
  fun w =>
    match m w with
    | (Resolved a, w') => k a w'
    | (Rejected, w') => (Rejected, w')
    end.

#[export] Instance eff_ret : MRet Eff := @ret.
#[export] Instance eff_bind : MBind Eff := fun A B k m => bind m k.

(** [await p], and a call that may throw. *)
Definition await {A : Type} (p : outcome A) : Eff A := fun w => (p, w).

(** [try { body } catch { handler } finally { fin }] *)
Definition try_catch_finally (body handler fin : Eff unit) : Eff unit :=
  fun w =>
    match body w with
    | (Resolved _, w1) => fin w1
    | (Rejected, w1) =>
        match handler w1 with
        | (Resolved _, w2) => fin w2
        | (Rejected, w2) => (Rejected, snd (fin w2))
        end
    end.

Definition modify (f : State -> State) : Eff unit :=
  fun w => (Resolved tt, {| comp := f (comp w); calls := calls w |}).

Definition setNews (v : list Article) : Eff unit := modify (with_news v).
Definition setCityInfo (v : option CityDto) : Eff unit := modify (with_cityInfo v).
Definition setError (v : option jsstring) : Eff unit := modify (with_error v).
Definition setLoading (v : bool) : Eff unit := modify (with_loading v).
Definition setCurrentPage (v : Z) : Eff unit := modify (with_currentPage v).

(** [await fetch(url, ...)] against a network that answers [url] with
    [net url]: the request is recorded, then the answer is awaited. *)
Definition fetch {B : Type} (net : jsstring -> outcome (Response B)) (url : jsstring) : Eff (Response B) :=
  fun w =>
    (net url,
     {| comp := comp w;
        calls := calls w ++ [ {| call_url := url; call_state := comp w |} ] |}).

(** ** Built-ins the handlers call, as used in the examples *)

(** [String.prototype.toLowerCase] on the ASCII range; it is the built-in
    itself on strings whose code units are all below 128. *)
Definition toLowerCase_ascii (s : jsstring) : jsstring :=
  map (fun c => if ((65 <=? c) && (c <=? 90))%N then (c + 32)%N else c) s.

(** Characters [encodeURIComponent] leaves as they are: letters, digits
    and [- _ . ! ~ * ' ( )]. *)
Definition uri_unreserved (c : N) : bool :=
  ((65 <=? c) && (c <=? 90) || (97 <=? c) && (c <=? 122) || (48 <=? c) && (c <=? 57)
   || (c =? 45) || (c =? 95) || (c =? 46) || (c =? 33) || (c =? 126)
   || (c =? 42) || (c =? 39) || (c =? 40) || (c =? 41))%N.

Definition hex_digit (n : N) : N := (if n <? 10 then 48 + n else 55 + n)%N.

Definition percent_octet (b : N) : jsstring :=
  [37%N; hex_digit (b / 16); hex_digit (b mod 16)].

Definition utf8_octets (cp : N) : list N :=
  (if cp <? 128 then [cp]
   else if cp <? 2048 then [192 + cp / 64; 128 + cp mod 64]
   else if cp <? 65536 then [224 + cp / 4096; 128 + (cp / 64) mod 64; 128 + cp mod 64]
   else [240 + cp / 262144; 128 + (cp / 4096) mod 64; 128 + (cp / 64) mod 64; 128 + cp mod 64])%N.

Definition is_lead_surrogate (c : N) : bool := ((55296 <=? c) && (c <=? 56319))%N.
Definition is_trail_surrogate (c : N) : bool := ((56320 <=? c) && (c <=? 57343))%N.

Definition outcome_map {A B : Type} (f : A -> B) (o : outcome A) : outcome B :=
  match o with
  | Resolved a => Resolved (f a)
  | Rejected => Rejected
  end.

(** [encodeURIComponent] (ECMA-262, Encode): unreserved characters are
    kept, every other code point becomes the percent-escaped octets of its
    UTF-8 form, and a lone surrogate throws a URIError. *)
Fixpoint encodeURIComponent_utf16 (s : jsstring) : outcome jsstring :=
  match s with
  | [] => Resolved []
  | c :: rest =>
      if uri_unreserved c then outcome_map (cons c) (encodeURIComponent_utf16 rest)
      else if is_trail_surrogate c then Rejected
      else if is_lead_surrogate c then
        match rest with
        | d :: rest' =>
            if is_trail_surrogate d then
              let cp := ((c - 55296) * 1024 + (d - 56320) + 65536)%N in
              outcome_map (app (concat (map percent_octet (utf8_octets cp))))
                          (encodeURIComponent_utf16 rest')
            else Rejected
        | [] => Rejected
        end
      else outcome_map (app (concat (map percent_octet (utf8_octets c))))
                       (encodeURIComponent_utf16 rest)
  end.

Definition is_digit (c : N) : bool := ((48 <=? c) && (c <=? 57))%N.

Definition is_leap_year (y : Z) : bool :=
  (y mod 4 =? 0) && (negb (y mod 100 =? 0) || (y mod 400 =? 0)).

Definition days_in_month (y m : Z) : Z :=
  if m =? 2 then (if is_leap_year y then 29 else 28)
  else if (m =? 4) || (m =? 6) || (m =? 9) || (m =? 11) then 30
  else 31.

(** A calendar day, as a small date parser hands it on. *)
Record CalendarDay : Type := { cal_year : Z; cal_month : Z; cal_day : Z }.

(** A date parser that reads the ISO date-only form [YYYY-MM-DD] and
    nothing else; what is not a date at all is rejected by every engine's
    parser, as it is by this one. *)
Definition Date_parse_iso_day (s : jsstring) : option CalendarDay :=
  match s with
  | [y1; y2; y3; y4; 45%N; m1; m2; 45%N; d1; d2] =>
      if forallb is_digit [y1; y2; y3; y4; m1; m2; d1; d2] then
        let y := Z.of_N ((y1 - 48) * 1000 + (y2 - 48) * 100 + (y3 - 48) * 10 + (y4 - 48)) in
        let m := Z.of_N ((m1 - 48) * 10 + (m2 - 48)) in
        let d := Z.of_N ((d1 - 48) * 10 + (d2 - 48)) in
        if (1 <=? m) && (m <=? 12) && (1 <=? d) && (d <=? days_in_month y m)
        then Some {| cal_year := y; cal_month := m; cal_day := d |}
        else None
      else None
  | _ => None
  end.

Definition month_name (m : Z) : string :=
  nth (Z.to_nat (m - 1))
      ["January"; "February"; "March"; "April"; "May"; "June"; "July";
       "August"; "September"; "October"; "November"; "December"]%string ""%string.

(** The long en-US form of a calendar day at midnight. *)
Definition format_enUS_midnight (d : CalendarDay) : jsstring :=
  lit (month_name (cal_month d)) ++ lit " " ++ Number_toString (Z.to_N (cal_day d))
    ++ lit ", " ++ Number_toString (Z.to_N (cal_year d)) ++ lit " at 12:00 AM".

(** ** Search orchestration *)

Definition BASE : jsstring := lit "http://51.21.218.3:8080".

Definition MSG_EMPTY : jsstring := lit "Please enter a city and state.".
Definition MSG_COMMA : jsstring :=
  lit "Please enter city and state separated by a comma (e.g., Miami, Florida).".
Definition MSG_INVALID : jsstring := lit "Invalid city or state name. Please check your input.".
Definition MSG_UNAUTHORIZED : jsstring := lit "Unauthorized: please enter your login and password.".
Definition MSG_NEWS_FAILED : jsstring := lit "Error getting news. Please try again.".
Definition MSG_NETWORK : jsstring := lit "Network error".

(** The request URLs, as the template literals build them from the
    percent-encoded city [c] and state [s]. *)
Definition cityInfoUrl (c s : jsstring) : jsstring :=
  BASE ++ lit "/api/cities/" ++ c ++ lit "/" ++ s.

Definition newsUrl (c s : jsstring) : jsstring :=
  BASE ++ lit "/api/news/" ++ c ++ lit "/" ++ s.

Definition globalNewsUrl : jsstring := BASE ++ lit "/api/news/global".

(** The template literal [`<prefix>${response.status} ${response.statusText}`]. *)
Definition statusMessage {B : Type} (prefix : string) (response : Response B) : jsstring :=
  lit prefix ++ Number_toString (status response) ++ lit " " ++ statusText response.

Arguments lit : simpl never.
Arguments cityInfoUrl : simpl never.
Arguments newsUrl : simpl never.
Arguments statusMessage : simpl never.

(** [matchedOption || searchQuery]: [undefined] and the empty string fall
    through to the query. *)
Definition or_query (matchedOption : option jsstring) (query : jsstring) : jsstring :=
  match matchedOption with
  | Some o => if str_truthy o then o else query
  | None => query
  end.

(** The platform, outside the repository: the built-ins the component
    calls. [Date_parse] is the time value of [new Date(s)], [None] when it
    is NaN (an Invalid Date); [DateTimeFormat_enUS] is what the en-US
    formatter with the component's options prints for a valid one. *)
Record Platform : Type := {
  TimeValue : Type;
  toLowerCase : jsstring -> jsstring;
  encodeURIComponent : jsstring -> outcome jsstring;
  Date_parse : jsstring -> option TimeValue;
  DateTimeFormat_enUS : TimeValue -> jsstring
}.

(** The server, as the handlers see it: what a request for city metadata
    and a request for news are answered with. *)
Record Network : Type := {
  net_city : jsstring -> outcome (Response CityDto);
  net_news : jsstring -> outcome (Response (list Article))
}.

Section Handlers.

Variable P : Platform.
Variable net : Network.

(** [cityOptions.find(option => option.toLowerCase() === searchQuery.toLowerCase())] *)
Definition matchedOption (query : jsstring) (options : list jsstring) : option jsstring :=
  find (fun option => str_eq (toLowerCase P option) (toLowerCase P query)) options.

(** The canonical location string [cityState]. *)
Definition cityState (query : jsstring) (options : list jsstring) : jsstring :=
  or_query (matchedOption query options) query.

(** The [try] block of [fetchCityNews]. *)
Definition cityNewsBody (city stateName : jsstring) : Eff unit :=
  c ← await (encodeURIComponent P city);
  s ← await (encodeURIComponent P stateName);
  cityInfoResponse ← fetch (net_city net) (cityInfoUrl c s);
  (if ok cityInfoResponse then
     cityData ← await (json cityInfoResponse);
     setCityInfo (Some cityData)
   else mret tt);;
  c' ← await (encodeURIComponent P city);
  s' ← await (encodeURIComponent P stateName);
  response ← fetch (net_news net) (newsUrl c' s');
  if ok response then
    data ← await (json response);
    setNews (map normalizeArticle data)
  else if (status response =? 401)%N then
    setError (Some MSG_UNAUTHORIZED)
  else
    setError (Some (statusMessage "Error getting news: " response)).

(** Lines 119-168 of [fetchCityNews]: the search itself, once [city] and
    [stateName] have passed validation. *)
Definition searchCity (city stateName : jsstring) : Eff unit :=
  setError None;;
  setLoading true;;
  setNews [];;
  setCityInfo None;;
  setCurrentPage 1;;
  try_catch_finally
    (cityNewsBody city stateName)
    (setError (Some MSG_NEWS_FAILED))
    (setLoading false).

(** [fetchCityNews], run with the [searchQuery] and [cityOptions] of the
    render it was created in. *)
Definition fetchCityNews (query : jsstring) (options : list jsstring) : Eff unit :=
  if negb (str_truthy (trim query)) then
    setError (Some MSG_EMPTY)
  else
    let cityState := cityState query options in
    if negb (includes cityState comma) then
      setError (Some MSG_COMMA)
    else
      (* [const [city, stateName] = ...]: a missing element is [undefined],
         which [!] treats like the empty string *)
      let parts := map trim (split cityState comma) in
      match parts !! 0%nat, parts !! 1%nat with
      | Some city, Some stateName =>
          if negb (str_truthy city) || negb (str_truthy stateName) then
            setError (Some MSG_INVALID)
          else searchCity city stateName
      | _, _ => setError (Some MSG_INVALID)
      end.

(** The [try] block of [fetchGlobalNews]. *)
Definition globalNewsBody : Eff unit :=
  response ← fetch (net_news net) globalNewsUrl;
  if ok response then
    data ← await (json response);
    setNews (map normalizeArticle data)
  else if (status response =? 401)%N then
    setError (Some MSG_UNAUTHORIZED)
  else
    setError (Some (statusMessage "Error: " response)).

Definition fetchGlobalNews : Eff unit :=
  setLoading true;;
  setError None;;
  setNews [];;
  setCityInfo None;;
  setCurrentPage 1;;
  try_catch_finally
    globalNewsBody
    (setError (Some MSG_NETWORK))
    (setLoading false).

(** A click on "Get News" in state [st]: the handler's outcome and the
    world it leaves. *)
Definition clickGetNews (st : State) : outcome unit * World :=
  fetchCityNews (searchQuery st) (cityOptions st) {| comp := st; calls := [] |}.

(** A click on "Load Global News" in state [st]. *)
Definition clickGlobalNews (st : State) : outcome unit * World :=
  fetchGlobalNews {| comp := st; calls := [] |}.

End Handlers.

(** ** Result renderer *)

Definition indexOfLastArticle (st : State) : Z := currentPage st * ARTICLES_PER_PAGE.
Definition indexOfFirstArticle (st : State) : Z := indexOfLastArticle st - ARTICLES_PER_PAGE.

Definition currentArticles (st : State) : list Article :=
  slice (news st) (indexOfFirstArticle st) (indexOfLastArticle st).

Definition totalPages (st : State) : Z :=
  Math_ceil_div (Z.of_nat (length (news st))) ARTICLES_PER_PAGE.

(** The paginator's [onChange]; the scroll it asks for is not part of the
    state. *)
Definition changePage (page : Z) (st : State) : State := with_currentPage page st.

(** The text of the description line: the two adjacent children
    [description.substring(0, 120)] and [description.length > 120 ? '...' : '']. *)
Definition descriptionText (description : jsstring) : jsstring :=
  substring description 0 120
    ++ (if 120 <? str_length description then lit "..." else lit "").

(** [date.toLocaleDateString('en-US', options)] on the date with time
    value [tv]: an Invalid Date prints as the string "Invalid Date"
    (ECMA-402, Date.prototype.toLocaleDateString, step 2) and nothing is
    thrown; a valid one goes through the formatter. *)
Definition toLocaleDateString (P : Platform) (tv : option (TimeValue P)) : outcome jsstring :=
  match tv with
  | None => Resolved (lit "Invalid Date")
  | Some t => Resolved (DateTimeFormat_enUS P t)
  end.

(** [formatDate]: the [try] returns what [toLocaleDateString] returns, the
    [catch] returns the empty string. *)
Definition formatDate (P : Platform) (dateString : jsstring) : jsstring :=
  match toLocaleDateString P (Date_parse P dateString) with
  | Resolved text => text
  | Rejected => lit ""
  end.

(** ** A platform and some servers for the examples *)

Definition example_platform : Platform :=
  {| TimeValue := CalendarDay;
     toLowerCase := toLowerCase_ascii;
     encodeURIComponent := encodeURIComponent_utf16;
     Date_parse := Date_parse_iso_day;
     DateTimeFormat_enUS := format_enUS_midnight |}.

(** A server that answers every city request with [c] and every news
    request with [n]. *)
Definition constant_network (c : outcome (Response CityDto))
    (n : outcome (Response (list Article))) : Network :=
  {| net_city := fun _ => c; net_news := fun _ => n |}.

Definition respond {B : Type} (code : N) (text : string) (body : outcome B) : outcome (Response B) :=
  Resolved {| status := code; statusText := lit text; json := body |}.

Definition miami : CityDto :=
  {| id := lit "1840015149"; city := lit "Miami"; stateName := lit "Florida";
     countyName := lit "Miami-Dade"; lat := lit "25.7839"; lng := lit "-80.2102";
     population := Some 6445545; timezone := lit "America/New_York" |}.

Definition article_of (title : string) (published : list (string * JValue)) : Article :=
  list_to_map (("title"%string, JStr (lit title)) :: published).

Definition sample_article : Article :=
  article_of "Storm" [("publishedAt"%string, JStr (lit "2024-01-05"));
                      ("publishedAtString"%string, JStr (lit "2024-01-06"))].

Definition query_state (query : string) : State :=
  {| searchQuery := lit query; cityOptions := []; news := []; cityInfo := None;
     error := None; loading := false; loadingCities := false; currentPage := 1 |}.

Definition paged_state (count : nat) (page : Z) : State :=
  {| searchQuery := []; cityOptions := []; news := repeat sample_article count;
     cityInfo := None; error := None; loading := false; loadingCities := false;
     currentPage := page |}.

Definition net_ok : Network :=
  constant_network (respond 200 "OK" (Resolved miami))
                   (respond 200 "OK" (Resolved [sample_article])).

(** The metadata request never completes (the connection fails). *)
Definition net_city_down : Network :=
  constant_network Rejected (respond 200 "OK" (Resolved [sample_article])).

(** City metadata is served, the news endpoint asks for credentials. *)
Definition net_unauthorized : Network :=
  constant_network (respond 200 "OK" (Resolved miami)) (respond 401 "Unauthorized" Rejected).

(** The news endpoint answers 200 with a body that is not JSON. *)
Definition net_bad_body : Network :=
  constant_network (respond 404 "Not Found" Rejected) (respond 200 "OK" Rejected).

(** No metadata for the city, the news endpoint fails with a 500. *)
Definition net_server_error : Network :=
  constant_network (respond 404 "Not Found" Rejected)
                   (respond 500 "Internal Server Error" Rejected).

(** ** The validation of the location, in words

    The query is not blank, and the canonical location string has a
    comma, something other than white space before its first comma, and
    something other than white space between that comma and the next one
    (or the end). Text after a second comma plays no part. *)

Fixpoint before_comma (s : jsstring) : jsstring :=
  match s with
  | [] => []
  | c :: rest => if (c =? comma)%N then [] else c :: before_comma rest
  end.

Fixpoint after_comma (s : jsstring) : jsstring :=
  match s with
  | [] => []
  | c :: rest => if (c =? comma)%N then rest else after_comma rest
  end.

Definition location_city (P : Platform) (st : State) : jsstring :=
  trim (before_comma (cityState P (searchQuery st) (cityOptions st))).

Definition location_state (P : Platform) (st : State) : jsstring :=
  trim (before_comma (after_comma (cityState P (searchQuery st) (cityOptions st)))).

Definition location_valid (P : Platform) (st : State) : bool :=
  str_truthy (trim (searchQuery st))
  && includes (cityState P (searchQuery st) (cityOptions st)) comma
  && str_truthy (location_city P st)
  && str_truthy (location_state P st).

(** The messages validation can leave. *)
Definition is_validation_message (m : option jsstring) : bool :=
  bool_decide (m = Some MSG_EMPTY) || bool_decide (m = Some MSG_COMMA)
  || bool_decide (m = Some MSG_INVALID).

(** The state a search starts from: lines 119-123, and 172-176 on the
    global path (the same five setters, in another order). *)
Definition reset (st : State) : State :=
  with_currentPage 1 (with_cityInfo None (with_news [] (with_loading true (with_error None st)))).

(** Whether the metadata request, answered with [o], lets the handler go
    on to the news request: it must complete, and a 2xx body must be
    readable. *)
Definition city_step_completes (o : outcome (Response CityDto)) : bool :=
  match o with
  | Resolved r =>
      if ok r then (match json r with Resolved _ => true | Rejected => false end) else true
  | Rejected => false
  end.

(** The URLs a search of a valid location requests, in order. *)
Definition search_urls (P : Platform) (net : Network) (st : State) : list jsstring :=
  match encodeURIComponent P (location_city P st), encodeURIComponent P (location_state P st) with
  | Resolved c, Resolved s =>
      cityInfoUrl c s
        :: (if city_step_completes (net_city net (cityInfoUrl c s)) then [newsUrl c s] else [])
  | _, _ => []
  end.

(** How many commas a string has. *)
Definition comma_count (s : jsstring) : nat :=
  length (List.filter (fun c => (c =? comma)%N) s).

(** The ellipsis character U+2026. *)
Definition HORIZONTAL_ELLIPSIS : jsstring := [8230%N].

(** ** Autocomplete and the input field *)

Definition with_searchQuery (v : jsstring) (st : State) : State :=
  {| searchQuery := v; cityOptions := cityOptions st; news := news st;
     cityInfo := cityInfo st; error := error st; loading := loading st;
     loadingCities := loadingCities st; currentPage := currentPage st |}.

Definition with_cityOptions (v : list jsstring) (st : State) : State :=
  {| searchQuery := searchQuery st; cityOptions := v; news := news st;
     cityInfo := cityInfo st; error := error st; loading := loading st;
     loadingCities := loadingCities st; currentPage := currentPage st |}.

Definition with_loadingCities (v : bool) (st : State) : State :=
  {| searchQuery := searchQuery st; cityOptions := cityOptions st; news := news st;
     cityInfo := cityInfo st; error := error st; loading := loading st;
     loadingCities := v; currentPage := currentPage st |}.

Definition setCityOptions (v : list jsstring) : Eff unit := modify (with_cityOptions v).
Definition setLoadingCities (v : bool) : Eff unit := modify (with_loadingCities v).

(** What the suggestions endpoint answers to a request. *)
Abbreviation CitiesNetwork := (jsstring -> outcome (Response (list jsstring))).

Definition citiesUrl (q : jsstring) : jsstring := BASE ++ lit "/api/cities?query=" ++ q.

Arguments citiesUrl : simpl never.

(** [fetchCities] (lines 58-84); the [console.error] of the [catch] leaves
    no trace in the state. *)
Definition fetchCities (P : Platform) (net_cities : CitiesNetwork) (query : jsstring) : Eff unit :=
  if negb (str_truthy (trim query)) then
    setCityOptions []
  else
    setLoadingCities true;;
    try_catch_finally
      (q ← await (encodeURIComponent P query);
       response ← fetch net_cities (citiesUrl q);
       if ok response then
         data ← await (json response);
         setCityOptions data
       else setCityOptions [])
      (setCityOptions [])
      (setLoadingCities false).

(** [fetchCities(query)] run in state [st]. *)
Definition runFetchCities (P : Platform) (net_cities : CitiesNetwork)
    (query : jsstring) (st : State) : outcome unit * World :=
  fetchCities P net_cities query {| comp := st; calls := [] |}.

(** The Autocomplete's [onInputChange]: the new state, and the argument
    the debounced [fetchCities] is scheduled with. *)
Definition onInputChange (newInputValue : jsstring) (st : State) : State * jsstring :=
  (with_searchQuery newInputValue st, trim newInputValue).

(** The call [onInputChange] scheduled, when it fires. *)
Definition inputFetch (P : Platform) (net_cities : CitiesNetwork)
    (newInputValue : jsstring) (st : State) : outcome unit * World :=
  runFetchCities P net_cities (snd (onInputChange newInputValue st))
                 (fst (onInputChange newInputValue st)).

(** The Autocomplete's [onChange]: [newValue] is a string or [null]. *)
Definition onChange (newValue : option jsstring) (st : State) : State :=
  match newValue with
  | Some value => with_searchQuery value st
  | None => st
  end.

(** ** What the page shows *)

(** [{error && <Alert ...>}] *)
Definition showsError (st : State) : bool :=
  match error st with
  | Some message => str_truthy message
  | None => false
  end.

(** [{news.length > 0 && ...}] *)
Definition showsArticles (st : State) : bool := 0 <? Z.of_nat (length (news st)).

(** [{totalPages > 1 && ...}], inside the article block. *)
Definition showsPagination (st : State) : bool :=
  showsArticles st && (1 <? totalPages st).

(** [{news.length === 0 && cityInfo && ...}] *)
Definition showsFallback (st : State) : bool :=
  (Z.of_nat (length (news st)) =? 0)
  && match cityInfo st with Some _ => true | None => false end.

(** The page the paginator is on exists. *)
Definition page_in_range (st : State) : Prop :=
  news st = [] \/ 1 <= currentPage st <= totalPages st.

(** The visible slice of each page, first page first. *)
Definition allPages (st : State) : list (list Article) :=
  map (fun k : nat => currentArticles (changePage (Z.of_nat (S k)) st))
      (seq 0 (Z.to_nat (totalPages st))).

(** A suggestions server for the examples. *)
Definition net_cities_ok : CitiesNetwork :=
  fun _ => respond 200 "OK" (Resolved [lit "Miami, Florida"; lit "Miami, Ohio"]).

(** ** Rendering: what can throw

    Evaluating the component body (lines 222-437) and mounting what it
    returns. What is kept of it is whether it throws, which is what takes
    the rendering tree down; the texts are [descriptionText] and
    [formatDate] above. With the query, the suggestions, the error and the
    city metadata of their declared types, the only expressions that can
    throw are in the article cards, whose fields are whatever the server
    sent. *)

(** [object.key] of an object literal as [json()] built it (its keys are
    distinct). *)
Fixpoint obj_get (fields : list (string * JValue)) (key : string) : JValue :=
  match fields with
  | [] => JUndefined
  | (k, v) :: rest => if String.eqb k key then v else obj_get rest key
  end.

(** [article.source?.name]: nothing for a missing or null source, the
    property of an object, and [undefined] on any other value, none of
    which has a [name]. *)
Definition source_name (source : JValue) : JValue :=
  match source with
  | JObj fields => obj_get fields "name"
  | _ => JUndefined
  end.

(** Whether React takes [v] as a child: strings and numbers are text,
    booleans, [null] and [undefined] are skipped, an array stands for its
    elements, and a plain object is refused ("Objects are not valid as a
    React child"). *)
Fixpoint valid_child (v : JValue) : bool :=
  match v with
  | JObj _ => false
  | JArr items => forallb valid_child items
  | _ => true
  end.

(** Mounting [{v}]. *)
Definition mount (v : JValue) : outcome unit :=
  if valid_child v then Resolved tt else Rejected.

(** [article.description?.substring(0, 120)]: skipped on [null] and
    [undefined], the prefix of a string, and a TypeError on anything else,
    which has no [substring] to call. *)
Definition descriptionPrefix (description : JValue) : outcome JValue :=
  match description with
  | JUndefined | JNull => Resolved JUndefined
  | JStr text => Resolved (JStr (substring text 0 120))
  | _ => Rejected
  end.

(** One article card (lines 300-372), expression by expression. Line 306:
    the image block is there when [article.urlToImage] is truthy (a falsy
    value is itself a child React skips or prints); its attributes take
    any value, and its link text mounts [article.source?.name || 'source']
    (line 337). Line 344 mounts [article.title] as it is. Line 350 mounts
    a template literal, or the falsy author; lines 351-352 mount the
    string [formatDate] returns, or the falsy date: neither throws. Lines
    355-356 call [substring] on the description. *)
Definition renderArticle (article : Article) : outcome unit :=
  match (if truthy (prop article "urlToImage")
         then mount (js_or (source_name (prop article "source")) (JStr (lit "source")))
         else Resolved tt),
        mount (prop article "title"),
        descriptionPrefix (prop article "description") with
  | Resolved _, Resolved _, Resolved _ => Resolved tt
  | _, _, _ => Rejected
  end.

Definition is_resolved {A : Type} (o : outcome A) : bool :=
  match o with Resolved _ => true | Rejected => false end.

(** The whole page: the cards of the visible slice are rendered when
    there are articles; the alert, the paginator and the city card mount
    strings and numbers only. *)
Definition render (st : State) : outcome unit :=
  if showsArticles st
  then (if forallb (fun article => is_resolved (renderArticle article)) (currentArticles st)
        then Resolved tt else Rejected)
  else Resolved tt.


(** A news endpoint that serves one article whose description is a
    number. *)
Definition net_numeric_description : Network :=
  constant_network (respond 404 "Not Found" Rejected)
    (respond 200 "OK"
       (Resolved [ list_to_map [("title"%string, JStr (lit "Storm"));
                                ("description"%string, JNum 5)] ])).

Example lit_ok : lit "a,b" = [97; 44; 98]%N.
Proof. reflexivity. Qed.

Example trim_ok : trim (lit "  Miami ") = lit "Miami".
Proof. reflexivity. Qed.

Example split_ok : split (lit "Miami, Florida, USA") comma = [lit "Miami"; lit " Florida"; lit " USA"].
Proof. reflexivity. Qed.

Example split_empty : split [] comma = [[]].
Proof. reflexivity. Qed.

Example split_trailing : split (lit "a,") comma = [lit "a"; []].
Proof. reflexivity. Qed.

Example number_ok : Number_toString 404 = lit "404".
Proof. reflexivity. Qed.

Example slice_ok : slice [1; 2; 3; 4; 5] 1 3 = [2; 3].
Proof. reflexivity. Qed.

Example ceil_ok : Math_ceil_div 25 10 = 3 /\ Math_ceil_div 20 10 = 2 /\ Math_ceil_div 0 10 = 0.
Proof. repeat split; reflexivity. Qed.

Example encode_space : encodeURIComponent_utf16 (lit "New York") = Resolved (lit "New%20York").
Proof. reflexivity. Qed.

Example encode_e_acute : encodeURIComponent_utf16 [233%N] = Resolved (lit "%C3%A9").
Proof. reflexivity. Qed.

Example encode_lone_surrogate : encodeURIComponent_utf16 [55357%N] = Rejected.
Proof. reflexivity. Qed.

Example suggestion_is_canonical :
  cityState example_platform (lit "miami, florida") [lit "Orlando, Florida"; lit "Miami, Florida"]
  = lit "Miami, Florida".
Proof. reflexivity. Qed.

Example first_click :
  snd (clickGetNews example_platform net_ok initialState)
  = {| comp := with_error (Some MSG_EMPTY) initialState; calls := [] |}.
Proof. reflexivity. Qed.

Example search_miami :
  let w := snd (clickGetNews example_platform net_ok (query_state "Miami, Florida")) in
  map call_url (calls w)
  = [ lit "http://51.21.218.3:8080/api/cities/Miami/Florida";
      lit "http://51.21.218.3:8080/api/news/Miami/Florida" ]
  /\ news (comp w) = [normalizeArticle sample_article]
  /\ cityInfo (comp w) = Some miami
  /\ error (comp w) = None
  /\ loading (comp w) = false.
Proof. repeat split. Qed.

Example server_error_message :
  error (comp (snd (clickGetNews example_platform net_server_error
                      (query_state "Miami, Florida"))))
  = Some (lit "Error getting news: 500 Internal Server Error").
Proof. reflexivity. Qed.

Example three_pages :
  totalPages (paged_state 25 1) = 3
  /\ map (fun p => length (currentArticles (paged_state 25 p))) [1; 2; 3] = [10; 10; 5]%nat.
Proof. split; reflexivity. Qed.

Example formatDate_valid :
  formatDate example_platform (lit "2024-01-05") = lit "January 5, 2024 at 12:00 AM".
Proof. reflexivity. Qed.

Example description_120 : descriptionText (repeat 97%N 120) = repeat 97%N 120.
Proof. reflexivity. Qed.

Example render_after_search :
  render (comp (snd (clickGetNews example_platform net_ok (query_state "Miami, Florida"))))
  = Resolved tt.
Proof. reflexivity. Qed.

Example render_numeric_description :
  render (comp (snd (clickGetNews example_platform net_numeric_description
                       (query_state "Miami, Florida"))))
  = Rejected.
Proof. reflexivity. Qed.

Example mount_object : mount (JArr [JStr (lit "a"); JObj []]) = Rejected.
Proof. reflexivity. Qed.

Example first_typing :
  fst (onInputChange (lit "Miami, Florida") initialState) = query_state "Miami, Florida".
Proof. reflexivity. Qed.

(** * Facts *)

(** ** Strings *)

Lemma split_before_after (s : jsstring) :
  split s comma
  = before_comma s :: (if includes s comma then split (after_comma s) comma else []).
Proof.
  induction s as [|c rest IH]; [reflexivity|].
  cbn [split before_comma after_comma includes existsb].
  rewrite (N.eqb_sym comma c).
  destruct (c =? comma)%N eqn:Hc; cbn [orb].
  - reflexivity.
  - fold (includes rest comma). rewrite IH. reflexivity.
Qed.

Lemma split_lookup_0 (s : jsstring) : split s comma !! 0%nat = Some (before_comma s).
Proof. rewrite split_before_after. reflexivity. Qed.

Lemma split_lookup_1 (s : jsstring) :
  split s comma !! 1%nat
  = if includes s comma then Some (before_comma (after_comma s)) else None.
Proof.
  rewrite split_before_after. destruct (includes s comma); [|reflexivity].
  cbn. apply split_lookup_0.
Qed.

Lemma lookup_map {A B : Type} (f : A -> B) (l : list A) (i : nat) :
  map f l !! i = f <$> (l !! i).
Proof. exact (list_lookup_fmap f l i). Qed.

(** ** Validation *)

Section HandlerFacts.

Variable P : Platform.
Variable net : Network.

Lemma validation_messages :
  is_validation_message (Some MSG_EMPTY) = true
  /\ is_validation_message (Some MSG_COMMA) = true
  /\ is_validation_message (Some MSG_INVALID) = true.
Proof. repeat split; vm_compute; reflexivity. Qed.

(** A location that fails validation: one of the three messages is set and
    nothing else happens. *)
Lemma clickGetNews_rejected (st : State) :
  location_valid P st = false ->
  exists m, is_validation_message (Some m) = true
    /\ clickGetNews P net st
       = (Resolved tt, {| comp := with_error (Some m) st; calls := [] |}).
Proof.
  destruct validation_messages as (He & Hc & Hi).
  unfold location_valid, location_city, location_state, clickGetNews, fetchCityNews.
  set (cs := cityState P (searchQuery st) (cityOptions st)).
  rewrite !lookup_map, split_lookup_0, split_lookup_1.
  destruct (str_truthy (trim (searchQuery st))); cbn [negb andb].
  2: { intros _. exists MSG_EMPTY. split; [exact He|reflexivity]. }
  destruct (includes cs comma); cbn [negb andb].
  2: { intros _. exists MSG_COMMA. split; [exact Hc|reflexivity]. }
  cbn [fmap option_fmap option_map].
  intros Hv. exists MSG_INVALID. split; [exact Hi|].
  destruct (str_truthy (trim (before_comma cs))); cbn [negb orb andb] in *; [|reflexivity].
  rewrite Hv. reflexivity.
Qed.

(** A location that passes validation: the search runs with the trimmed
    text before the first comma as the city and the trimmed text up to the
    next comma as the state. *)
Lemma clickGetNews_accepted (st : State) :
  location_valid P st = true ->
  clickGetNews P net st
  = searchCity P net (location_city P st) (location_state P st)
               {| comp := st; calls := [] |}.
Proof.
  unfold location_valid, location_city, location_state, clickGetNews, fetchCityNews.
  set (cs := cityState P (searchQuery st) (cityOptions st)).
  rewrite !lookup_map, split_lookup_0, split_lookup_1.
  intros Hv. apply andb_true_iff in Hv as [Hv Hs].
  apply andb_true_iff in Hv as [Hv Hc].
  apply andb_true_iff in Hv as [Hq Hi].
  rewrite Hq, Hi. cbn [negb fmap option_fmap option_map].
  rewrite Hc, Hs. reflexivity.
Qed.

(** ** Running the handlers *)

Ltac unfold_eff :=
  unfold searchCity, cityNewsBody, fetchGlobalNews, globalNewsBody,
    try_catch_finally, fetch, await, setError, setLoading, setNews,
    setCityInfo, setCurrentPage, modify, mbind, mret, eff_bind, eff_ret,
    bind, ret in *.

Ltac split_run :=
  repeat (cbn in *;
          match goal with
          | |- context [encodeURIComponent P ?x] => destruct (encodeURIComponent P x) eqn:?
          | |- context [net_city net ?u] => destruct (net_city net u) eqn:?
          | |- context [net_news net ?u] => destruct (net_news net u) eqn:?
          | |- context [ok ?r] => destruct (ok r) eqn:?
          | |- context [json ?r] => destruct (json r) eqn:?
          | |- context [(status ?r =? 401)%N] => destruct (status r =? 401)%N eqn:?
          end).

Lemma statusMessage_not_validation {B : Type} (r : Response B) :
  is_validation_message (Some (statusMessage "Error getting news: " r)) = false.
Proof.
  unfold is_validation_message.
  rewrite !orb_false_iff, !bool_decide_eq_false.
  repeat split; intros H; apply (f_equal (fun o => o ≫= head)) in H.
  all: vm_compute in H; discriminate H.
Qed.

Lemma search_error_not_validation (city stateName : jsstring) (w : World) :
  is_validation_message (error (comp (snd (searchCity P net city stateName w)))) = false.
Proof.
  unfold_eff. split_run;
    solve [ vm_compute; reflexivity | apply statusMessage_not_validation ].
Qed.

Lemma search_calls (city stateName : jsstring) (st : State) :
  map call_url (calls (snd (searchCity P net city stateName {| comp := st; calls := [] |})))
  = match encodeURIComponent P city, encodeURIComponent P stateName with
    | Resolved c, Resolved s =>
        cityInfoUrl c s
          :: (if city_step_completes (net_city net (cityInfoUrl c s)) then [newsUrl c s] else [])
    | _, _ => []
    end.
Proof.
  unfold_eff. unfold city_step_completes. split_run; simplify_eq; reflexivity.
Qed.

(** ** The city search *)

(** C2, amended. A query that is not blank and whose canonical location
    string (the matched suggestion, or else the raw query) has no comma:
    [fetchCityNews] sets the comma-format message and returns without
    issuing a request; articles, city metadata, page and loading flag are
    what they were. (A blank query is answered with "Please enter a city
    and state." before the comma is looked for.) *)
Theorem C2_no_comma_no_request (st : State) :
  str_truthy (trim (searchQuery st)) = true ->
  includes (cityState P (searchQuery st) (cityOptions st)) comma = false ->
  fst (clickGetNews P net st) = Resolved tt
  /\ error (comp (snd (clickGetNews P net st))) = Some MSG_COMMA
  /\ calls (snd (clickGetNews P net st)) = []
  /\ news (comp (snd (clickGetNews P net st))) = news st
  /\ cityInfo (comp (snd (clickGetNews P net st))) = cityInfo st
  /\ currentPage (comp (snd (clickGetNews P net st))) = currentPage st
  /\ loading (comp (snd (clickGetNews P net st))) = loading st.
Proof.
  intros Hq Hc. unfold clickGetNews, fetchCityNews.
  rewrite Hq, Hc. cbn. repeat split; reflexivity.
Qed.

(** C3, amended. A location search is accepted exactly when the query is
    not blank and its canonical location string has at least one comma,
    with non-blank text before the first comma (the city) and non-blank
    text between the first comma and the next one or the end (the state);
    anything after a second comma is ignored. A rejected search leaves a
    validation message and issues no request. An accepted one leaves no
    validation message and issues the requests of [search_urls]: the city
    metadata request when both names percent-encode, followed by the news
    request when the metadata step completes (the request does not fail
    and a 2xx body is readable); none, or the first alone, otherwise. *)
Theorem C3_location_validation (st : State) :
  if location_valid P st
  then is_validation_message (error (comp (snd (clickGetNews P net st)))) = false
       /\ map call_url (calls (snd (clickGetNews P net st))) = search_urls P net st
  else is_validation_message (error (comp (snd (clickGetNews P net st)))) = true
       /\ calls (snd (clickGetNews P net st)) = [].
Proof.
  destruct (location_valid P st) eqn:Hv.
  - rewrite (clickGetNews_accepted st Hv). split.
    + apply search_error_not_validation.
    + apply search_calls.
  - destruct (clickGetNews_rejected st Hv) as (m & Hm & ->). split; [exact Hm|reflexivity].
Qed.

(** C4, amended. Once a city search has reached the news request (the
    location is valid, both names percent-encode, the metadata step
    completed), the answer of the news endpoint decides the outcome: a 2xx
    response whose body reads as an array of articles stores the normalised
    list and sets no error; a 2xx response whose body cannot be read sets
    "Error getting news. Please try again."; a 401 sets exactly the
    unauthorized message and leaves the city metadata as it was when the
    news request went out; any other status sets
    "Error getting news: <status> <statusText>"; a fetch that throws sets
    "Error getting news. Please try again." *)
Theorem C4_news_response (st : State) (c s : jsstring) :
  location_valid P st = true ->
  encodeURIComponent P (location_city P st) = Resolved c ->
  encodeURIComponent P (location_state P st) = Resolved s ->
  city_step_completes (net_city net (cityInfoUrl c s)) = true ->
  exists call,
    calls (snd (clickGetNews P net st)) !! 1%nat = Some call
    /\ call_url call = newsUrl c s
    /\ match net_news net (newsUrl c s) with
       | Resolved r =>
           if ok r then
             match json r with
             | Resolved data =>
                 news (comp (snd (clickGetNews P net st))) = map normalizeArticle data
                 /\ error (comp (snd (clickGetNews P net st))) = None
             | Rejected =>
                 error (comp (snd (clickGetNews P net st))) = Some MSG_NEWS_FAILED
             end
           else if (status r =? 401)%N then
             error (comp (snd (clickGetNews P net st))) = Some MSG_UNAUTHORIZED
             /\ cityInfo (comp (snd (clickGetNews P net st))) = cityInfo (call_state call)
           else
             error (comp (snd (clickGetNews P net st)))
             = Some (lit "Error getting news: " ++ Number_toString (status r)
                       ++ lit " " ++ statusText r)
       | Rejected =>
           error (comp (snd (clickGetNews P net st))) = Some MSG_NEWS_FAILED
       end.
Proof.
  intros Hv Hc Hs. rewrite (clickGetNews_accepted st Hv).
  unfold_eff. unfold city_step_completes. rewrite Hc, Hs.
  split_run; intros Hstep; try discriminate Hstep;
    eexists; repeat split; reflexivity.
Qed.

(** C5, amended. In a city search that gets as far as the metadata
    request: a non-success HTTP status of that request surfaces no error,
    leaves the city metadata null, and the news request still goes out
    (with no error set and no metadata); a 2xx answer with a readable body
    populates the metadata before the news request goes out. A
    network-level failure of the metadata request, or a 2xx answer whose
    body cannot be read, ends the search instead: the handler's one catch
    block sets "Error getting news. Please try again." and the news request
    is never issued. *)
Theorem C5_city_info_step (st : State) (c s : jsstring) :
  location_valid P st = true ->
  encodeURIComponent P (location_city P st) = Resolved c ->
  encodeURIComponent P (location_state P st) = Resolved s ->
  exists call,
    calls (snd (clickGetNews P net st)) !! 0%nat = Some call
    /\ call_url call = cityInfoUrl c s
    /\ match net_city net (cityInfoUrl c s) with
       | Resolved r =>
           if ok r then
             match json r with
             | Resolved cityData =>
                 exists call2,
                   calls (snd (clickGetNews P net st)) !! 1%nat = Some call2
                   /\ call_url call2 = newsUrl c s
                   /\ error (call_state call2) = None
                   /\ cityInfo (call_state call2) = Some cityData
             | Rejected =>
                 error (comp (snd (clickGetNews P net st))) = Some MSG_NEWS_FAILED
                 /\ calls (snd (clickGetNews P net st)) = [call]
             end
           else
             cityInfo (comp (snd (clickGetNews P net st))) = None
             /\ exists call2,
                  calls (snd (clickGetNews P net st)) !! 1%nat = Some call2
                  /\ call_url call2 = newsUrl c s
                  /\ error (call_state call2) = None
                  /\ cityInfo (call_state call2) = None
       | Rejected =>
           error (comp (snd (clickGetNews P net st))) = Some MSG_NEWS_FAILED
           /\ calls (snd (clickGetNews P net st)) = [call]
       end.
Proof.
  intros Hv Hc Hs. rewrite (clickGetNews_accepted st Hv).
  unfold_eff. rewrite Hc, Hs.
  split_run; eexists; repeat split; try reflexivity;
    eexists; repeat split; reflexivity.
Qed.

(** The render of a state with no article never throws. *)
Lemma render_no_articles (st : State) : news st = [] -> render st = Resolved tt.
Proof. intros Hn. unfold render, showsArticles. rewrite Hn. reflexivity. Qed.


(** ** The global path *)

(** C9. Whatever the state and the query in it, [fetchGlobalNews] issues
    exactly one request, to the global news endpoint and to no other, and
    issues it with error, articles, city metadata and page already reset;
    it never sets the city metadata; a status outside 2xx other than 401
    gives "Error: <status> <statusText>" and a fetch that throws gives
    "Network error". *)
Theorem C9_global_news (st : State) :
  calls (snd (clickGlobalNews net st))
  = [ {| call_url := globalNewsUrl; call_state := reset st |} ]
  /\ error (reset st) = None
  /\ news (reset st) = []
  /\ cityInfo (reset st) = None
  /\ currentPage (reset st) = 1
  /\ cityInfo (comp (snd (clickGlobalNews net st))) = None
  /\ match net_news net globalNewsUrl with
     | Resolved r =>
         if ok r then
           match json r with
           | Resolved data =>
               news (comp (snd (clickGlobalNews net st))) = map normalizeArticle data
               /\ error (comp (snd (clickGlobalNews net st))) = None
           | Rejected =>
               error (comp (snd (clickGlobalNews net st))) = Some MSG_NETWORK
           end
         else if (status r =? 401)%N then
           error (comp (snd (clickGlobalNews net st))) = Some MSG_UNAUTHORIZED
         else
           error (comp (snd (clickGlobalNews net st)))
           = Some (lit "Error: " ++ Number_toString (status r) ++ lit " " ++ statusText r)
     | Rejected =>
         error (comp (snd (clickGlobalNews net st))) = Some MSG_NETWORK
     end.
Proof.
  unfold clickGlobalNews. unfold_eff. split_run; repeat split; reflexivity.
Qed.

(** ** Normalisation of the articles *)

Lemma normalizeArticle_lookup (article : Article) (k : string) :
  normalizeArticle article !! k
  = if decide (k = "publishedAt"%string)
    then Some (if truthy (prop article "publishedAtString")
               then prop article "publishedAtString"
               else prop article "publishedAt")
    else article !! k.
Proof.
  unfold normalizeArticle, js_or. rewrite lookup_insert.
  destruct (decide ("publishedAt"%string = k)), (decide (k = "publishedAt"%string));
    congruence.
Qed.

(** C10. Every article of a 2xx news response, on the global path and on
    the city path alike, is stored normalised, in its place in the list.
    Normalising gives [publishedAt] the value of [publishedAtString] when
    that is truthy (a string is truthy exactly when it is not empty; a
    missing property is not) and the article's own [publishedAt]
    otherwise, and leaves every other property as it was. *)
Theorem C10_normalization (st : State) (r : Response (list Article))
    (data : list Article) (i : nat) (article : Article) (k : string) :
  ok r = true ->
  json r = Resolved data ->
  data !! i = Some article ->
  (net_news net globalNewsUrl = Resolved r ->
   news (comp (snd (clickGlobalNews net st))) !! i = Some (normalizeArticle article))
  /\ (forall c s,
        location_valid P st = true ->
        encodeURIComponent P (location_city P st) = Resolved c ->
        encodeURIComponent P (location_state P st) = Resolved s ->
        city_step_completes (net_city net (cityInfoUrl c s)) = true ->
        net_news net (newsUrl c s) = Resolved r ->
        news (comp (snd (clickGetNews P net st))) !! i = Some (normalizeArticle article))
  /\ normalizeArticle article !! k
     = (if decide (k = "publishedAt"%string)
        then Some (if truthy (prop article "publishedAtString")
                   then prop article "publishedAtString"
                   else prop article "publishedAt")
        else article !! k)
  /\ (forall text, truthy (JStr text) = negb (bool_decide (text = [])))
  /\ (article !! "publishedAtString"%string = None ->
      truthy (prop article "publishedAtString") = false).
Proof.
  intros Hok Hjson Hi.
  assert (Hmap : map normalizeArticle data !! i = Some (normalizeArticle article)).
  { rewrite lookup_map, Hi. reflexivity. }
  split; [|split; [|split; [|split]]].
  - intros Hnet. unfold clickGlobalNews. unfold_eff. cbn.
    rewrite Hnet. cbn. rewrite Hok. cbn. rewrite Hjson. cbn. exact Hmap.
  - intros c s Hv Hc Hs Hstep Hnet. rewrite (clickGetNews_accepted st Hv).
    revert Hstep. unfold_eff. unfold city_step_completes. rewrite Hc, Hs. cbn.
    destruct (net_city net (cityInfoUrl c s)) as [rc|]; [|discriminate]. cbn.
    destruct (ok rc); cbn.
    + destruct (json rc); [|discriminate]. cbn.
      rewrite Hnet. cbn. rewrite Hok. cbn. rewrite Hjson. cbn. intros _. exact Hmap.
    + rewrite Hnet. cbn. rewrite Hok. cbn. rewrite Hjson. cbn. intros _. exact Hmap.
  - apply normalizeArticle_lookup.
  - intros [|? ?]; reflexivity.
  - intros Hnone. unfold prop. rewrite Hnone. reflexivity.
Qed.

End HandlerFacts.

(** ** Paging *)

Lemma Math_ceil_div_10 (n : Z) :
  Math_ceil_div n 10 = (n + 9) / 10
  /\ 10 * (Math_ceil_div n 10 - 1) < n <= 10 * Math_ceil_div n 10.
Proof.
  unfold Math_ceil_div.
  pose proof (Z.div_mod (- n) 10 ltac:(lia)) as Hd.
  pose proof (Z.mod_pos_bound (- n) 10 ltac:(lia)) as Hm.
  pose proof (Z.div_mod (n + 9) 10 ltac:(lia)) as Hd'.
  pose proof (Z.mod_pos_bound (n + 9) 10 ltac:(lia)) as Hm'.
  lia.
Qed.

Lemma slice_in_range {A : Type} (arr : list A) (start end_ : Z) :
  0 <= start <= end_ ->
  slice arr start end_
  = take (Z.to_nat (end_ - start)) (drop (Z.to_nat start) arr).
Proof.
  intros Hr. unfold slice.
  destruct (start <? 0) eqn:Hs; [lia|].
  destruct (end_ <? 0) eqn:He; [lia|].
  set (len := Z.of_nat (length arr)).
  destruct (Z.le_gt_cases len start) as [Hout|Hin].
  - rewrite !drop_ge by lia. by rewrite !take_nil.
  - replace (Z.min start len) with start by lia.
    destruct (Z.le_gt_cases end_ len) as [Hfit|Hcut].
    + do 2 f_equal. lia.
    + replace (Z.to_nat (Z.max (Z.min end_ len - start) 0))
        with (length (drop (Z.to_nat start) arr)) by (rewrite length_drop; lia).
      rewrite firstn_all. symmetry. apply take_ge. rewrite length_drop. lia.
Qed.

(** C1. The renderer's page count is the ceiling of N/10. On a page [p]
    with [1 <= p <= totalPages] the visible slice is the articles at the
    indices from [(p-1)*10] up to, not including, [p*10], as far as the
    list goes, so it has [min(10, N - 10*(p-1))] articles. Paging leaves
    the article list as it is. *)
Theorem C1_paging (st : State) :
  1 <= currentPage st <= totalPages st ->
  totalPages st = (Z.of_nat (length (news st)) + 9) / 10
  /\ 10 * (totalPages st - 1) < Z.of_nat (length (news st)) <= 10 * totalPages st
  /\ (forall i : nat,
        currentArticles st !! i
        = if (i <? 10)%nat
          then news st !! (Z.to_nat ((currentPage st - 1) * 10) + i)%nat
          else None)
  /\ Z.of_nat (length (currentArticles st))
     = Z.min 10 (Z.of_nat (length (news st)) - 10 * (currentPage st - 1))
  /\ (forall page : Z, news (changePage page st) = news st).
Proof.
  intros Hp.
  destruct (Math_ceil_div_10 (Z.of_nat (length (news st)))) as [Hc Hb].
  unfold totalPages, ARTICLES_PER_PAGE in *.
  assert (Hs : currentArticles st
               = take 10 (drop (Z.to_nat ((currentPage st - 1) * 10)) (news st))).
  { unfold currentArticles, indexOfFirstArticle, indexOfLastArticle, ARTICLES_PER_PAGE.
    rewrite slice_in_range by lia. f_equal; [lia | f_equal; lia]. }
  split; [exact Hc|]. split; [exact Hb|]. split; [|split].
  - intros i. rewrite Hs. destruct (i <? 10)%nat eqn:Hi.
    + apply Nat.ltb_lt in Hi. rewrite lookup_take_lt by exact Hi. apply lookup_drop.
    + apply Nat.ltb_ge in Hi. apply lookup_take_ge. exact Hi.
  - rewrite Hs, length_take, length_drop. lia.
  - reflexivity.
Qed.

(** ** Article text *)

Lemma substring_prefix (s : jsstring) (n : Z) :
  0 <= n -> substring s 0 n = take (Z.to_nat n) s.
Proof.
  intros Hn. unfold substring, str_length.
  replace (Z.min (Z.max 0 0) (Z.of_nat (length s))) with 0 by lia.
  replace (Z.max n 0) with n by lia.
  replace (Z.min 0 (Z.min n (Z.of_nat (length s)))) with 0 by lia.
  replace (Z.max 0 (Z.min n (Z.of_nat (length s)))) with (Z.min n (Z.of_nat (length s))) by lia.
  change (Z.to_nat 0) with 0%nat. rewrite drop_0, Z.sub_0_r.
  destruct (Z.le_gt_cases n (Z.of_nat (length s))) as [Hle|Hgt].
  - f_equal. lia.
  - rewrite !take_ge by lia. reflexivity.
Qed.

(** C8, amended. The description line shows the whole description when it
    has at most 120 code units, and otherwise its first 120 code units
    followed by three full stops, "...": a description of exactly 120
    renders unchanged, one of 121 renders its first 120 and then "...". *)
Theorem C8_description_truncation (description : jsstring) :
  descriptionText description
  = if str_length description <=? 120
    then description
    else take 120 description ++ lit "...".
Proof.
  unfold descriptionText. rewrite substring_prefix by lia. unfold str_length.
  change (Z.to_nat 120) with 120%nat.
  destruct (Z.leb_spec (Z.of_nat (length description)) 120) as [Hle|Hgt].
  - destruct (Z.ltb_spec 120 (Z.of_nat (length description))) as [?|_]; [lia|].
    replace (lit "") with (@nil N) by reflexivity. rewrite app_nil_r.
    apply take_ge. lia.
  - destruct (Z.ltb_spec 120 (Z.of_nat (length description))) as [_|?]; [|lia].
    reflexivity.
Qed.

(** C7, as the code has it. For a date string the platform cannot parse,
    [formatDate] does not throw and does not return the empty string: it
    returns the text "Invalid Date", because [toLocaleDateString] returns
    that text for an invalid date instead of throwing, so the [catch] that
    returns the empty string is never entered. *)
Theorem C7_formatDate_invalid (P : Platform) (dateString : jsstring) :
  Date_parse P dateString = None ->
  toLocaleDateString P (Date_parse P dateString) = Resolved (lit "Invalid Date")
  /\ formatDate P dateString = lit "Invalid Date"
  /\ formatDate P dateString <> lit "".
Proof.
  intros Hp. unfold formatDate. rewrite Hp. cbn.
  repeat split. discriminate.
Qed.

(** ** The theorems at concrete inputs *)

Lemma C1_paging_witness :
  1 <= currentPage (paged_state 25 3) <= totalPages (paged_state 25 3)
  /\ totalPages (paged_state 25 3) = 3
  /\ Z.of_nat (length (currentArticles (paged_state 25 3))) = 5.
Proof.
  assert (H : 1 <= currentPage (paged_state 25 3) <= totalPages (paged_state 25 3))
    by (vm_compute; split; discriminate).
  split; [exact H|].
  destruct (C1_paging (paged_state 25 3) H) as (Ht & _ & _ & Hl & _).
  split; [rewrite Ht|rewrite Hl]; reflexivity.
Defined.

Lemma C2_no_comma_no_request_witness :
  str_truthy (trim (searchQuery (query_state "Miami"))) = true
  /\ includes (cityState example_platform (searchQuery (query_state "Miami"))
                 (cityOptions (query_state "Miami"))) comma = false
  /\ error (comp (snd (clickGetNews example_platform net_ok (query_state "Miami"))))
     = Some MSG_COMMA
  /\ calls (snd (clickGetNews example_platform net_ok (query_state "Miami"))) = [].
Proof.
  split; [reflexivity|]. split; [reflexivity|].
  destruct (C2_no_comma_no_request example_platform net_ok (query_state "Miami")
              eq_refl eq_refl) as (_ & He & Hc & _).
  split; [exact He|exact Hc].
Defined.

Lemma C4_news_response_witness :
  location_valid example_platform (query_state "Miami, Florida") = true
  /\ encodeURIComponent example_platform
       (location_city example_platform (query_state "Miami, Florida"))
     = Resolved (lit "Miami")
  /\ encodeURIComponent example_platform
       (location_state example_platform (query_state "Miami, Florida"))
     = Resolved (lit "Florida")
  /\ city_step_completes
       (net_city net_unauthorized (cityInfoUrl (lit "Miami") (lit "Florida"))) = true
  /\ error (comp (snd (clickGetNews example_platform net_unauthorized
                         (query_state "Miami, Florida"))))
     = Some MSG_UNAUTHORIZED.
Proof.
  do 4 (split; [reflexivity|]).
  destruct (C4_news_response example_platform net_unauthorized
              (query_state "Miami, Florida") (lit "Miami") (lit "Florida")
              eq_refl eq_refl eq_refl eq_refl) as (call & _ & _ & H).
  exact (proj1 H).
Defined.

Lemma C5_city_info_step_witness :
  location_valid example_platform (query_state "Miami, Florida") = true
  /\ encodeURIComponent example_platform
       (location_city example_platform (query_state "Miami, Florida"))
     = Resolved (lit "Miami")
  /\ encodeURIComponent example_platform
       (location_state example_platform (query_state "Miami, Florida"))
     = Resolved (lit "Florida")
  /\ cityInfo (comp (snd (clickGetNews example_platform net_server_error
                            (query_state "Miami, Florida")))) = None
  /\ length (calls (snd (clickGetNews example_platform net_server_error
                           (query_state "Miami, Florida")))) = 2%nat.
Proof.
  do 3 (split; [reflexivity|]).
  destruct (C5_city_info_step example_platform net_server_error
              (query_state "Miami, Florida") (lit "Miami") (lit "Florida")
              eq_refl eq_refl eq_refl) as (call & _ & _ & H).
  split; [exact (proj1 H)|reflexivity].
Defined.


Lemma C7_formatDate_invalid_witness :
  Date_parse example_platform (lit "not a date") = None
  /\ formatDate example_platform (lit "not a date") = lit "Invalid Date".
Proof.
  split; [reflexivity|].
  exact (proj1 (proj2 (C7_formatDate_invalid example_platform (lit "not a date") eq_refl))).
Defined.

Lemma C10_normalization_witness :
  ok {| status := 200%N; statusText := lit "OK"; json := Resolved [sample_article] |} = true
  /\ [sample_article] !! 0%nat = Some sample_article
  /\ news (comp (snd (clickGlobalNews net_ok (query_state "")))) !! 0%nat
     = Some (normalizeArticle sample_article)
  /\ normalizeArticle sample_article !! "title"%string = sample_article !! "title"%string
  /\ normalizeArticle sample_article !! "publishedAt"%string = Some (JStr (lit "2024-01-06")).
Proof.
  split; [reflexivity|]. split; [reflexivity|].
  pose proof (fun k =>
    C10_normalization example_platform net_ok (query_state "")
      {| status := 200%N; statusText := lit "OK"; json := Resolved [sample_article] |}
      [sample_article] 0%nat sample_article k eq_refl eq_refl eq_refl) as H.
  split; [exact (proj1 (H "title"%string) eq_refl)|].
  split.
  - exact (proj1 (proj2 (proj2 (H "title"%string)))).
  - exact (proj1 (proj2 (proj2 (H "publishedAt"%string)))).
Defined.

(** ** Where the code parts from the specification *)

(** C2 as stated fails on the empty query: it has no comma, and the
    message is the one for an empty query. *)
Lemma C2_counterexample :
  includes (cityState example_platform (searchQuery (query_state ""))
              (cityOptions (query_state ""))) comma = false
  /\ error (comp (snd (clickGetNews example_platform net_ok (query_state ""))))
     = Some MSG_EMPTY
  /\ Some MSG_EMPTY <> Some MSG_COMMA.
Proof. repeat split. vm_compute. discriminate. Qed.

(** C3 as stated fails twice. A query with two commas is accepted, and
    both requests go out for the first two pieces. And acceptance does not
    by itself issue the two requests: a query with exactly one comma and
    two non-blank names is accepted, yet when the metadata request fails
    the news request is never issued. *)
Lemma C3_counterexample :
  (comma_count (searchQuery (query_state "Miami, Florida, USA")) = 2%nat
   /\ map call_url (calls (snd (clickGetNews example_platform net_ok
                                  (query_state "Miami, Florida, USA"))))
      = [ lit "http://51.21.218.3:8080/api/cities/Miami/Florida";
          lit "http://51.21.218.3:8080/api/news/Miami/Florida" ]
   /\ error (comp (snd (clickGetNews example_platform net_ok
                          (query_state "Miami, Florida, USA")))) = None)
  /\ (comma_count (searchQuery (query_state "Miami, Florida")) = 1%nat
      /\ location_valid example_platform (query_state "Miami, Florida") = true
      /\ is_validation_message
           (error (comp (snd (clickGetNews example_platform net_city_down
                               (query_state "Miami, Florida"))))) = false
      /\ map call_url (calls (snd (clickGetNews example_platform net_city_down
                                     (query_state "Miami, Florida"))))
         = [ lit "http://51.21.218.3:8080/api/cities/Miami/Florida" ]).
Proof. repeat split. Qed.

(** C4 as stated fails on a 200 answer whose body is not JSON: an error is
    set and no article is stored. *)
Lemma C4_counterexample :
  net_news net_bad_body (newsUrl (lit "Miami") (lit "Florida"))
  = Resolved {| status := 200%N; statusText := lit "OK"; json := Rejected |}
  /\ ok {| status := 200%N; statusText := lit "OK"; json := @Rejected (list Article) |} = true
  /\ map call_url (calls (snd (clickGetNews example_platform net_bad_body
                                 (query_state "Miami, Florida"))))
     = [ cityInfoUrl (lit "Miami") (lit "Florida"); newsUrl (lit "Miami") (lit "Florida") ]
  /\ error (comp (snd (clickGetNews example_platform net_bad_body
                         (query_state "Miami, Florida")))) = Some MSG_NEWS_FAILED
  /\ news (comp (snd (clickGetNews example_platform net_bad_body
                        (query_state "Miami, Florida")))) = [].
Proof. repeat split. Qed.

(** C5 as stated fails when the metadata request itself fails: an error
    is shown and the news request is never issued. *)
Lemma C5_counterexample :
  net_city net_city_down (cityInfoUrl (lit "Miami") (lit "Florida")) = Rejected
  /\ error (comp (snd (clickGetNews example_platform net_city_down
                         (query_state "Miami, Florida")))) = Some MSG_NEWS_FAILED
  /\ map call_url (calls (snd (clickGetNews example_platform net_city_down
                                 (query_state "Miami, Florida"))))
     = [ cityInfoUrl (lit "Miami") (lit "Florida") ].
Proof. repeat split. Qed.


(** C8 as stated fails on the ellipsis itself: what follows the first 120
    code units of a longer description is three full stops, not the single
    character U+2026. *)
Lemma C8_counterexample :
  str_length (repeat 97%N 121) = 121
  /\ descriptionText (repeat 97%N 121) = repeat 97%N 120 ++ lit "..."
  /\ descriptionText (repeat 97%N 121) <> take 120 (repeat 97%N 121) ++ HORIZONTAL_ELLIPSIS.
Proof.
  split; [reflexivity|]. split; [reflexivity|].
  intros H. apply (f_equal (@length N)) in H. vm_compute in H. discriminate H.
Qed.

(** * More of the component *)

(** ** Trimming *)

Lemma trim_start_suffix (s : jsstring) : exists pre, s = pre ++ trim_start s.
Proof.
  induction s as [|c rest [pre IH]]; [by exists []|].
  cbn. destruct (is_whitespace c).
  - exists (c :: pre). cbn. by rewrite <- IH.
  - by exists [].
Qed.

Lemma trim_start_head (s : jsstring) :
  match trim_start s with
  | [] => True
  | c :: _ => is_whitespace c = false
  end.
Proof.
  induction s as [|c rest IH]; [done|].
  cbn. destruct (is_whitespace c) eqn:Hc; [exact IH|exact Hc].
Qed.

Lemma trim_start_fixed (s : jsstring) :
  match s with [] => True | c :: _ => is_whitespace c = false end ->
  trim_start s = s.
Proof. destruct s as [|c rest]; [done|]. cbn. by intros ->. Qed.

Lemma trim_idempotent (s : jsstring) : trim (trim s) = trim s.
Proof.
  unfold trim.
  set (u := trim_start s). set (v := trim_start (rev u)).
  assert (Hv : trim_start v = v) by (apply trim_start_fixed, trim_start_head).
  assert (Hr : trim_start (rev v) = rev v).
  { apply trim_start_fixed.
    destruct (trim_start_suffix (rev u)) as [pre Hpre]. fold v in Hpre.
    apply (f_equal (@rev N)) in Hpre.
    rewrite rev_involutive, rev_app_distr in Hpre.
    pose proof (trim_start_head s) as Hu. fold u in Hu.
    destruct (rev v) as [|c rest]; [done|].
    rewrite Hpre in Hu. exact Hu. }
  rewrite Hr, rev_involutive, Hv. reflexivity.
Qed.

Section AutocompleteFacts.

Variable P : Platform.
Variable net_cities : CitiesNetwork.

Ltac unfold_cities :=
  unfold runFetchCities, fetchCities, try_catch_finally, fetch, await,
    setCityOptions, setLoadingCities, modify, mbind, mret, eff_bind, eff_ret,
    bind, ret.

Lemma runFetchCities_blank (query : jsstring) (st : State) :
  str_truthy (trim query) = false ->
  runFetchCities P net_cities query st
  = (Resolved tt, {| comp := with_cityOptions [] st; calls := [] |}).
Proof.
  intros Hq. unfold runFetchCities, fetchCities. rewrite Hq. reflexivity.
Qed.

Lemma runFetchCities_urls (query : jsstring) (st : State) :
  str_truthy (trim query) = true ->
  map call_url (calls (snd (runFetchCities P net_cities query st)))
  = match encodeURIComponent P query with
    | Resolved q => [citiesUrl q]
    | Rejected => []
    end.
Proof.
  intros Hq. unfold_cities. rewrite Hq. cbn.
  destruct (encodeURIComponent P query) as [q|]; cbn; [|done].
  destruct (net_cities (citiesUrl q)) as [r|]; cbn; [|done].
  destruct (ok r); cbn; [|done].
  destruct (json r); cbn; done.
Qed.

Lemma runFetchCities_searchQuery (query : jsstring) (st : State) :
  searchQuery (comp (snd (runFetchCities P net_cities query st))) = searchQuery st.
Proof.
  unfold_cities. destruct (str_truthy (trim query)); cbn; [|done].
  destruct (encodeURIComponent P query) as [q|]; cbn; [|done].
  destruct (net_cities (citiesUrl q)) as [r|]; cbn; [|done].
  destruct (ok r); cbn; [|done].
  destruct (json r); cbn; done.
Qed.

(** X1. [fetchCities] never throws and never touches anything but the
    suggestions and their spinner; in particular it shows no error. On an
    empty or whitespace-only query it clears the suggestions without a
    request and leaves the spinner as it was. On any other query it ends
    with the spinner off and issues one request, for the percent-encoded
    query and with the spinner on (none if the encoding throws); the
    suggestions become the response body when the answer is 2xx with a
    readable body, and the empty list in every other case. *)
Theorem X1_fetchCities (query : jsstring) (st : State) :
  fst (runFetchCities P net_cities query st) = Resolved tt
  /\ if str_truthy (trim query) then
       comp (snd (runFetchCities P net_cities query st))
       = with_loadingCities false
           (with_cityOptions
              (cityOptions (comp (snd (runFetchCities P net_cities query st)))) st)
       /\ match encodeURIComponent P query with
          | Resolved q =>
              calls (snd (runFetchCities P net_cities query st))
              = [ {| call_url := citiesUrl q; call_state := with_loadingCities true st |} ]
              /\ cityOptions (comp (snd (runFetchCities P net_cities query st)))
                 = match net_cities (citiesUrl q) with
                   | Resolved r =>
                       if ok r
                       then match json r with Resolved data => data | Rejected => [] end
                       else []
                   | Rejected => []
                   end
          | Rejected =>
              calls (snd (runFetchCities P net_cities query st)) = []
              /\ cityOptions (comp (snd (runFetchCities P net_cities query st))) = []
          end
     else
       snd (runFetchCities P net_cities query st)
       = {| comp := with_cityOptions [] st; calls := [] |}.
Proof.
  unfold_cities. destruct (str_truthy (trim query)); cbn; [|done].
  destruct (encodeURIComponent P query) as [q|]; cbn; [|done].
  destruct (net_cities (citiesUrl q)) as [r|]; cbn; [|done].
  destruct (ok r); cbn; [|done].
  destruct (json r); cbn; done.
Qed.

(** X2. Typing in the field stores the text as typed and schedules the
    suggestions fetch with the trimmed text. When that call fires (here:
    on the state the input change left), a whitespace-only text clears the
    suggestions without any request. Any other text is looked up trimmed:
    when the trimmed text percent-encodes, exactly one request goes out
    and carries the encoded trimmed text; when it does not (a lone
    surrogate), no request goes out. *)
Theorem X2_input_change (newInputValue : jsstring) (st : State) :
  searchQuery (comp (snd (inputFetch P net_cities newInputValue st))) = newInputValue
  /\ if str_truthy (trim newInputValue)
     then map call_url (calls (snd (inputFetch P net_cities newInputValue st)))
          = match encodeURIComponent P (trim newInputValue) with
            | Resolved q => [citiesUrl q]
            | Rejected => []
            end
     else calls (snd (inputFetch P net_cities newInputValue st)) = []
          /\ cityOptions (comp (snd (inputFetch P net_cities newInputValue st))) = [].
Proof.
  unfold inputFetch, onInputChange. cbn [fst snd].
  split; [apply runFetchCities_searchQuery|].
  destruct (str_truthy (trim newInputValue)) eqn:Hq.
  - apply runFetchCities_urls. rewrite trim_idempotent. exact Hq.
  - rewrite runFetchCities_blank by (rewrite trim_idempotent; exact Hq).
    split; reflexivity.
Qed.

End AutocompleteFacts.

(** ** The news handlers, seen from the rest of the state *)

Section NewsFacts.

Variable P : Platform.
Variable net : Network.

Ltac unfold_news :=
  unfold clickGlobalNews, searchCity, cityNewsBody, fetchGlobalNews, globalNewsBody,
    try_catch_finally, fetch, await, setError, setLoading, setNews,
    setCityInfo, setCurrentPage, modify, mbind, mret, eff_bind, eff_ret,
    bind, ret in *.

Ltac run_news :=
  repeat (cbn in *;
          match goal with
          | |- context [encodeURIComponent P ?x] => destruct (encodeURIComponent P x) eqn:?
          | |- context [net_city net ?u] => destruct (net_city net u) eqn:?
          | |- context [net_news net ?u] => destruct (net_news net u) eqn:?
          | |- context [ok ?r] => destruct (ok r) eqn:?
          | |- context [json ?r] => destruct (json r) eqn:?
          | |- context [(status ?r =? 401)%N] => destruct (status r =? 401)%N eqn:?
          end).

Lemma totalPages_positive (st : State) : news st <> [] -> 1 <= totalPages st.
Proof.
  intros Hn. unfold totalPages, ARTICLES_PER_PAGE.
  destruct (Math_ceil_div_10 (Z.of_nat (length (news st)))) as [_ Hb].
  destruct (news st); [done|]. cbn [length] in *. lia.
Qed.

Lemma page_one_in_range (st : State) : currentPage st = 1 -> page_in_range st.
Proof.
  intros Hp. unfold page_in_range. destruct (news st) eqn:Hn; [by left|right].
  rewrite Hp. pose proof (totalPages_positive st) as Ht. rewrite Hn in Ht.
  specialize (Ht ltac:(done)). lia.
Qed.

Lemma search_page_one (city stateName : jsstring) (w : World) :
  currentPage (comp (snd (searchCity P net city stateName w))) = 1.
Proof. unfold_news. run_news; reflexivity. Qed.

Lemma global_page_one (st : State) :
  currentPage (comp (snd (clickGlobalNews net st))) = 1.
Proof. unfold_news. run_news; reflexivity. Qed.

(** X3. The two news handlers never touch the input side of the state:
    whatever the server answers, the query text, the suggestions and the
    suggestions spinner are after the handler what they were before. *)
Theorem X3_news_handlers_frame (st : State) :
  searchQuery (comp (snd (clickGetNews P net st))) = searchQuery st
  /\ cityOptions (comp (snd (clickGetNews P net st))) = cityOptions st
  /\ loadingCities (comp (snd (clickGetNews P net st))) = loadingCities st
  /\ searchQuery (comp (snd (clickGlobalNews net st))) = searchQuery st
  /\ cityOptions (comp (snd (clickGlobalNews net st))) = cityOptions st
  /\ loadingCities (comp (snd (clickGlobalNews net st))) = loadingCities st.
Proof.
  assert (Hg : searchQuery (comp (snd (clickGlobalNews net st))) = searchQuery st
               /\ cityOptions (comp (snd (clickGlobalNews net st))) = cityOptions st
               /\ loadingCities (comp (snd (clickGlobalNews net st))) = loadingCities st).
  { unfold_news. run_news; repeat split. }
  destruct Hg as (Hg1 & Hg2 & Hg3).
  destruct (location_valid P st) eqn:Hv.
  - rewrite (clickGetNews_accepted P net st Hv).
    repeat split; try assumption; unfold_news; run_news; reflexivity.
  - destruct (clickGetNews_rejected P net st Hv) as (m & _ & ->).
    repeat split; assumption.
Qed.

(** X4. Every request a news handler issues goes out from the reset
    state: the loading flag is on, no error is set, the article list is
    empty and the page is 1. *)
Theorem X4_requests_in_flight (st : State) :
  Forall (fun call => loading (call_state call) = true
                      /\ error (call_state call) = None
                      /\ news (call_state call) = []
                      /\ currentPage (call_state call) = 1)
         (calls (snd (clickGetNews P net st)) ++ calls (snd (clickGlobalNews net st))).
Proof.
  apply Forall_app. split.
  - destruct (location_valid P st) eqn:Hv.
    + rewrite (clickGetNews_accepted P net st Hv).
      unfold_news. run_news; repeat constructor.
    + destruct (clickGetNews_rejected P net st Hv) as (m & _ & ->). constructor.
  - unfold_news. run_news; repeat constructor.
Qed.

(** X5. The paginator never points past the list. If the current page
    exists (or there are no articles), it still does after a click on
    either news button, after a suggestions fetch, after a change of the
    query, and after the paginator moves to any page it offers. *)
Theorem X5_page_in_range_kept (st : State) :
  page_in_range st ->
  page_in_range (comp (snd (clickGetNews P net st)))
  /\ page_in_range (comp (snd (clickGlobalNews net st)))
  /\ (forall net_cities query,
        page_in_range (comp (snd (runFetchCities P net_cities query st))))
  /\ (forall newValue, page_in_range (onChange newValue st))
  /\ (forall page, 1 <= page <= totalPages st -> page_in_range (changePage page st)).
Proof.
  intros Hst. split; [|split; [|split; [|split]]].
  - destruct (location_valid P st) eqn:Hv.
    + rewrite (clickGetNews_accepted P net st Hv).
      apply page_one_in_range, search_page_one.
    + destruct (clickGetNews_rejected P net st Hv) as (m & _ & ->). exact Hst.
  - apply page_one_in_range, global_page_one.
  - intros net_cities query.
    unfold runFetchCities, fetchCities, try_catch_finally, fetch, await,
      setCityOptions, setLoadingCities, modify, mbind, mret, eff_bind, eff_ret,
      bind, ret.
    destruct (str_truthy (trim query)); cbn; [|exact Hst].
    destruct (encodeURIComponent P query) as [q|]; cbn; [|exact Hst].
    destruct (net_cities (citiesUrl q)) as [r|]; cbn; [|exact Hst].
    destruct (ok r); cbn; [|exact Hst].
    destruct (json r); cbn; exact Hst.
  - intros [v|]; exact Hst.
  - intros page Hp. right. exact Hp.
Qed.

(** X6. What the page shows after a city search whose metadata request
    succeeded depends on the news step alone. If that step fails in any
    way (a status outside 2xx, an unreadable body, a failed request), the
    error alert and the "no news about this city" card are shown
    together. If it succeeds with an empty list, the card is shown with no
    error; if it succeeds with articles, the articles are shown with
    neither. *)
Theorem X6_display_after_city_info (st : State) (c s : jsstring)
    (rc : Response CityDto) (cityData : CityDto) :
  location_valid P st = true ->
  encodeURIComponent P (location_city P st) = Resolved c ->
  encodeURIComponent P (location_state P st) = Resolved s ->
  net_city net (cityInfoUrl c s) = Resolved rc ->
  ok rc = true ->
  json rc = Resolved cityData ->
  cityInfo (comp (snd (clickGetNews P net st))) = Some cityData
  /\ match net_news net (newsUrl c s) with
     | Resolved r =>
         if ok r then
           match json r with
           | Resolved (_ :: _) =>
               showsArticles (comp (snd (clickGetNews P net st))) = true
               /\ showsError (comp (snd (clickGetNews P net st))) = false
               /\ showsFallback (comp (snd (clickGetNews P net st))) = false
           | Resolved [] =>
               showsArticles (comp (snd (clickGetNews P net st))) = false
               /\ showsError (comp (snd (clickGetNews P net st))) = false
               /\ showsFallback (comp (snd (clickGetNews P net st))) = true
           | Rejected =>
               showsArticles (comp (snd (clickGetNews P net st))) = false
               /\ showsError (comp (snd (clickGetNews P net st))) = true
               /\ showsFallback (comp (snd (clickGetNews P net st))) = true
           end
         else
           showsArticles (comp (snd (clickGetNews P net st))) = false
           /\ showsError (comp (snd (clickGetNews P net st))) = true
           /\ showsFallback (comp (snd (clickGetNews P net st))) = true
     | Rejected =>
         showsArticles (comp (snd (clickGetNews P net st))) = false
         /\ showsError (comp (snd (clickGetNews P net st))) = true
         /\ showsFallback (comp (snd (clickGetNews P net st))) = true
     end.
Proof.
  intros Hv Hc Hs Hcity Hok Hjson. rewrite (clickGetNews_accepted P net st Hv).
  unfold_news. rewrite Hc, Hs. cbn. rewrite Hcity. cbn. rewrite Hok. cbn.
  rewrite Hjson. cbn. split; [run_news; reflexivity|].
  destruct (net_news net (newsUrl c s)) as [r|]; cbn; [|done].
  destruct (ok r); cbn.
  - destruct (json r) as [[|a data]|]; cbn; done.
  - destruct (status r =? 401)%N; cbn; done.
Qed.

(** X7. After a search that passed validation, the page never shows an
    error alert and articles together. After every load of the global
    news, from any state, it never shows them together either, and it
    never shows the "no news about this city" card. *)
Theorem X7_error_excludes_articles (st : State) :
  (location_valid P st = true ->
   showsArticles (comp (snd (clickGetNews P net st)))
     && showsError (comp (snd (clickGetNews P net st))) = false)
  /\ showsArticles (comp (snd (clickGlobalNews net st)))
       && showsError (comp (snd (clickGlobalNews net st))) = false
  /\ showsFallback (comp (snd (clickGlobalNews net st))) = false.
Proof.
  unfold showsArticles, showsError, showsFallback.
  split; [|split].
  - intros Hv. rewrite (clickGetNews_accepted P net st Hv).
    unfold_news; run_news; solve [ reflexivity | apply andb_false_r ].
  - unfold_news; run_news; solve [ reflexivity | apply andb_false_r ].
  - unfold_news; run_news; solve [ reflexivity | apply andb_false_r ].
Qed.

(** *** What validation reads of the query *)

Lemma trim_start_nil (s : jsstring) :
  trim_start s = [] <-> forallb is_whitespace s = true.
Proof.
  induction s as [|c rest IH]; [done|].
  cbn. destruct (is_whitespace c); cbn; [exact IH|]. split; discriminate.
Qed.

Lemma forallb_rev {A : Type} (f : A -> bool) (l : list A) :
  forallb f (rev l) = forallb f l.
Proof.
  induction l as [|x l IH]; [done|].
  cbn. rewrite forallb_app, IH. cbn. rewrite andb_true_r. apply andb_comm.
Qed.

(** A string is blank to [trim] exactly when all of it is white space. *)
Lemma trim_truthy (s : jsstring) :
  str_truthy (trim s) = negb (forallb is_whitespace s).
Proof.
  unfold trim.
  destruct (forallb is_whitespace s) eqn:Hs.
  - apply trim_start_nil in Hs. rewrite Hs. reflexivity.
  - assert (Hu : trim_start s <> []) by (rewrite trim_start_nil, Hs; discriminate).
    assert (Hv : trim_start (rev (trim_start s)) <> []).
    { rewrite trim_start_nil, forallb_rev. intros Hall.
      pose proof (trim_start_head s) as Hh.
      destruct (trim_start s) as [|c rest]; [done|].
      cbn in Hall. rewrite Hh in Hall. discriminate. }
    destruct (trim_start (rev (trim_start s))) as [|c rest] eqn:Hr; [done|].
    cbn. destruct (rev rest ++ [c]) eqn:Happ; [|reflexivity].
    by destruct (rev rest).
Qed.

Lemma before_comma_app (s extra : jsstring) :
  before_comma (s ++ comma :: extra) = before_comma s.
Proof.
  induction s as [|c rest IH]; cbn [app before_comma].
  - by rewrite N.eqb_refl.
  - destruct (c =? comma)%N; [reflexivity|]. by rewrite IH.
Qed.

Lemma after_comma_app (s extra : jsstring) :
  includes s comma = true ->
  after_comma (s ++ comma :: extra) = after_comma s ++ comma :: extra.
Proof.
  unfold includes. induction s as [|c rest IH]; [discriminate|].
  cbn [existsb app after_comma]. rewrite (N.eqb_sym comma c).
  destruct (c =? comma)%N; [reflexivity|]. exact IH.
Qed.

Lemma includes_app_comma (s extra : jsstring) :
  includes (s ++ comma :: extra) comma = true.
Proof.
  unfold includes. rewrite existsb_app. cbn [existsb]. rewrite N.eqb_refl.
  apply orb_true_iff. right. reflexivity.
Qed.

Lemma comma_not_blank (s extra : jsstring) :
  str_truthy (trim (s ++ comma :: extra)) = true.
Proof.
  rewrite trim_truthy, forallb_app. cbn.
  rewrite andb_false_r. reflexivity.
Qed.

(** X8. Whatever follows a second comma plays no part in a city search.
    For a query that passes validation as typed (no suggestion stands in
    for it), adding a comma and any text to it changes neither the
    requests that go out nor anything the search leaves in the articles,
    the city metadata, the error, the loading flag or the page. *)
Theorem X8_text_after_second_comma (st : State) (extra : jsstring) :
  location_valid P st = true ->
  matchedOption P (searchQuery st) (cityOptions st) = None ->
  matchedOption P (searchQuery st ++ comma :: extra) (cityOptions st) = None ->
  map call_url (calls (snd (clickGetNews P net
                              (with_searchQuery (searchQuery st ++ comma :: extra) st))))
  = map call_url (calls (snd (clickGetNews P net st)))
  /\ news (comp (snd (clickGetNews P net
                        (with_searchQuery (searchQuery st ++ comma :: extra) st))))
     = news (comp (snd (clickGetNews P net st)))
  /\ cityInfo (comp (snd (clickGetNews P net
                            (with_searchQuery (searchQuery st ++ comma :: extra) st))))
     = cityInfo (comp (snd (clickGetNews P net st)))
  /\ error (comp (snd (clickGetNews P net
                         (with_searchQuery (searchQuery st ++ comma :: extra) st))))
     = error (comp (snd (clickGetNews P net st)))
  /\ loading (comp (snd (clickGetNews P net
                           (with_searchQuery (searchQuery st ++ comma :: extra) st))))
     = loading (comp (snd (clickGetNews P net st)))
  /\ currentPage (comp (snd (clickGetNews P net
                               (with_searchQuery (searchQuery st ++ comma :: extra) st))))
     = currentPage (comp (snd (clickGetNews P net st))).
Proof.
  intros Hv Hm Hm'.
  set (st' := with_searchQuery (searchQuery st ++ comma :: extra) st).
  assert (Hcs : cityState P (searchQuery st) (cityOptions st) = searchQuery st)
    by (unfold cityState; rewrite Hm; reflexivity).
  assert (Hcs' : cityState P (searchQuery st') (cityOptions st')
                 = searchQuery st ++ comma :: extra)
    by (unfold cityState, st'; cbn [searchQuery cityOptions with_searchQuery];
        rewrite Hm'; reflexivity).
  pose proof Hv as Hv0. unfold location_valid, location_city, location_state in Hv0.
  rewrite Hcs in Hv0.
  apply andb_true_iff in Hv0 as [Hv0 Hstate].
  apply andb_true_iff in Hv0 as [Hv0 Hcity].
  apply andb_true_iff in Hv0 as [_ Hinc].
  assert (Hc : location_city P st' = location_city P st).
  { unfold location_city. rewrite Hcs, Hcs', before_comma_app. reflexivity. }
  assert (Hs : location_state P st' = location_state P st).
  { unfold location_state. rewrite Hcs, Hcs', after_comma_app by exact Hinc.
    rewrite before_comma_app. reflexivity. }
  assert (Hv' : location_valid P st' = true).
  { unfold location_valid. rewrite Hc, Hs. unfold location_city, location_state.
    rewrite Hcs, Hcs', Hcity, Hstate, includes_app_comma.
    cbn [searchQuery st' with_searchQuery]. rewrite comma_not_blank. reflexivity. }
  rewrite (clickGetNews_accepted P net st Hv), (clickGetNews_accepted P net st' Hv').
  rewrite Hc, Hs. unfold st'.
  repeat split; unfold_news; run_news; reflexivity.
Qed.

(** X9. The location a city search uses is the typed query, unless one of
    the current suggestions equals the query once both are lower-cased:
    then it is the first such suggestion, as the suggestion spells it (an
    empty suggestion never replaces the query). With no such suggestion it
    is the query itself. *)
Theorem X9_canonical_location (query : jsstring) (options : list jsstring) :
  match matchedOption P query options with
  | Some option =>
      option ∈ options
      /\ toLowerCase P option = toLowerCase P query
      /\ (exists before after,
            options = before ++ option :: after
            /\ forall o, o ∈ before -> toLowerCase P o <> toLowerCase P query)
      /\ cityState P query options = (if str_truthy option then option else query)
  | None =>
      (forall o, o ∈ options -> toLowerCase P o <> toLowerCase P query)
      /\ cityState P query options = query
  end.
Proof.
  unfold cityState, matchedOption, str_eq.
  induction options as [|o rest IH]; cbn.
  - split; [intros o Ho; by apply elem_of_nil in Ho|reflexivity].
  - destruct (bool_decide (toLowerCase P o = toLowerCase P query)) eqn:Ho.
    + apply bool_decide_eq_true in Ho.
      split; [apply list_elem_of_here|]. split; [exact Ho|]. split; [|reflexivity].
      exists [], rest. split; [reflexivity|]. intros o' Ho'. by apply elem_of_nil in Ho'.
    + apply bool_decide_eq_false in Ho.
      destruct (find _ rest) as [m|].
      * destruct IH as (Hin & Heq & (before & after & Hsplit & Hbefore) & Hcs).
        split; [by apply list_elem_of_further|]. split; [exact Heq|]. split; [|exact Hcs].
        exists (o :: before), after. split; [by rewrite Hsplit|].
        intros o' Ho'. apply elem_of_cons in Ho' as [->|Ho']; [exact Ho|by apply Hbefore].
      * destruct IH as (Hnone & Hcs). split; [|exact Hcs].
        intros o' Ho'. apply elem_of_cons in Ho' as [->|Ho']; [exact Ho|by apply Hnone].
Qed.

End NewsFacts.

(** ** The pages of the article list *)

Lemma chunks_concat {A : Type} (n : nat) (l : list A) :
  (length l <= 10 * n)%nat ->
  concat (map (fun k : nat => take 10 (drop (10 * k) l)) (seq 0 n)) = l.
Proof.
  revert l. induction n as [|n IH]; intros l Hl.
  - destruct l; [reflexivity|cbn in Hl; lia].
  - cbn [seq map concat]. rewrite <- seq_shift, map_map.
    etransitivity; [|apply (take_drop 10 l)]. f_equal.
    etransitivity; [|apply (IH (drop 10 l)); rewrite length_drop; lia].
    f_equal. apply map_ext. intros k. rewrite drop_drop. do 2 f_equal. lia.
Qed.

Lemma page_slice (k : nat) (st : State) :
  currentArticles (changePage (Z.of_nat (S k)) st) = take 10 (drop (10 * k) (news st)).
Proof.
  unfold currentArticles, indexOfFirstArticle, indexOfLastArticle, ARTICLES_PER_PAGE.
  cbn [currentPage news changePage with_currentPage].
  rewrite slice_in_range by lia. f_equal; [lia | f_equal; lia].
Qed.

(** X10. The pages the paginator offers cut the article list into
    consecutive runs: the visible slices of pages 1 to [totalPages], one
    after the other, are the article list itself, nothing lost, nothing
    shown twice, order kept; and none of these pages is empty or has more
    than ten articles. *)
Theorem X10_pages_partition (st : State) :
  concat (allPages st) = news st
  /\ Forall (fun page => (1 <= length page <= 10)%nat) (allPages st).
Proof.
  unfold allPages.
  destruct (Math_ceil_div_10 (Z.of_nat (length (news st)))) as [_ Hb].
  change (Math_ceil_div (Z.of_nat (length (news st))) 10) with (totalPages st) in Hb. split.
  - rewrite (map_ext _ (fun k : nat => take 10 (drop (10 * k) (news st))))
      by (intros k; apply page_slice).
    apply chunks_concat. lia.
  - apply List.Forall_forall. intros page Hin. apply in_map_iff in Hin as (k & <- & Hk).
    apply in_seq in Hk. rewrite page_slice, length_take, length_drop. lia.
Qed.

(** X11. Whatever number the page state holds, the visible slice has at
    most ten articles and every one of them is an article of the list. For
    a page beyond the last, and for page 0, nothing is visible. *)
Theorem X11_slice_any_page (st : State) :
  (length (currentArticles st) <= 10)%nat
  /\ (forall article, article ∈ currentArticles st -> article ∈ news st)
  /\ (totalPages st < currentPage st -> currentArticles st = [])
  /\ (currentPage st = 0 -> currentArticles st = []).
Proof.
  unfold currentArticles, indexOfFirstArticle, indexOfLastArticle, ARTICLES_PER_PAGE, slice.
  destruct (Math_ceil_div_10 (Z.of_nat (length (news st)))) as [_ Hb].
  change (Math_ceil_div (Z.of_nat (length (news st))) 10) with (totalPages st) in Hb.
  set (len := Z.of_nat (length (news st))) in *.
  set (p := currentPage st).
  split; [|split; [|split]].
  - rewrite length_take.
    destruct (p * 10 - 10 <? 0) eqn:Ha, (p * 10 <? 0) eqn:Hz; lia.
  - intros article Hin. apply subseteq_take in Hin. by apply subseteq_drop in Hin.
  - intros Hp.
    destruct (p * 10 - 10 <? 0) eqn:Ha; [lia|].
    destruct (p * 10 <? 0) eqn:Hz; [lia|].
    rewrite drop_ge by lia. apply take_nil.
  - intros Hp. rewrite Hp.
    change (0 * 10 - 10 <? 0) with true. change (0 * 10 <? 0) with false.
    cbn iota.
    replace (Z.to_nat (Z.max (Z.min (0 * 10) len - Z.max (len + (0 * 10 - 10)) 0) 0))
      with 0%nat by lia.
    reflexivity.
Qed.

(** X12. The paginator is on screen exactly when there are more than ten
    articles, and the page count is zero exactly when there are none. *)
Theorem X12_pagination_shown (st : State) :
  showsPagination st = (10 <? Z.of_nat (length (news st)))
  /\ (totalPages st =? 0) = (Z.of_nat (length (news st)) =? 0).
Proof.
  unfold showsPagination, showsArticles.
  destruct (Math_ceil_div_10 (Z.of_nat (length (news st)))) as [_ Hb].
  change (Math_ceil_div (Z.of_nat (length (news st))) 10) with (totalPages st) in Hb.
  split.
  - destruct (Z.ltb_spec 0 (Z.of_nat (length (news st)))),
             (Z.ltb_spec 1 (totalPages st)),
             (Z.ltb_spec 10 (Z.of_nat (length (news st)))); cbn; lia.
  - destruct (Z.eqb_spec (totalPages st) 0),
             (Z.eqb_spec (Z.of_nat (length (news st))) 0); lia.
Qed.

(** ** Article text, again *)

(** X13. Normalising is idempotent: an article that went through
    [normalizeArticle] comes out of a second pass unchanged, and so does a
    whole response. *)
Theorem X13_normalize_idempotent (article : Article) (data : list Article) :
  normalizeArticle (normalizeArticle article) = normalizeArticle article
  /\ map normalizeArticle (map normalizeArticle data) = map normalizeArticle data.
Proof.
  assert (Hor : forall x y, js_or x (js_or x y) = js_or x y).
  { intros x y. unfold js_or. destruct (truthy x); reflexivity. }
  assert (H : forall a, normalizeArticle (normalizeArticle a) = normalizeArticle a).
  { intros a.
    assert (Hs : prop (normalizeArticle a) "publishedAtString" = prop a "publishedAtString").
    { unfold prop, normalizeArticle. by rewrite lookup_insert_ne. }
    assert (Hp : prop (normalizeArticle a) "publishedAt"
                 = js_or (prop a "publishedAtString") (prop a "publishedAt")).
    { unfold prop at 1. unfold normalizeArticle. by rewrite lookup_insert_eq. }
    unfold normalizeArticle at 1. rewrite Hs, Hp, Hor.
    unfold normalizeArticle. apply insert_insert_eq. }
  split; [apply H|].
  rewrite map_map. apply map_ext. intros a. apply H.
Qed.

(** X14. The description line is never longer than 123 code units: it is
    as long as the description up to 120, and exactly 123 beyond; and its
    first 120 code units are always those of the description. *)
Theorem X14_description_length (description : jsstring) :
  str_length (descriptionText description)
  = (if str_length description <=? 120 then str_length description else 123)
  /\ take 120 (descriptionText description) = take 120 description.
Proof.
  unfold descriptionText. rewrite substring_prefix by lia.
  change (Z.to_nat 120) with 120%nat. unfold str_length.
  destruct (Z.leb_spec (Z.of_nat (length description)) 120) as [Hle|Hgt].
  - destruct (Z.ltb_spec 120 (Z.of_nat (length description))) as [?|_]; [lia|].
    change (lit "") with (@nil N). rewrite app_nil_r.
    rewrite !(take_ge description) by lia. split; reflexivity.
  - destruct (Z.ltb_spec 120 (Z.of_nat (length description))) as [_|?]; [|lia].
    split.
    + rewrite length_app, length_take. change (length (lit "...")) with 3%nat. lia.
    + rewrite take_app_le by (rewrite length_take; lia).
      rewrite take_take. reflexivity.
Qed.

(** ** These facts at concrete inputs *)

Lemma X5_page_in_range_kept_witness :
  page_in_range (paged_state 25 3)
  /\ page_in_range (comp (snd (clickGlobalNews net_ok (paged_state 25 3))))
  /\ page_in_range (changePage 2 (paged_state 25 3)).
Proof.
  assert (H : page_in_range (paged_state 25 3))
    by (right; vm_compute; split; discriminate).
  split; [exact H|].
  destruct (X5_page_in_range_kept example_platform net_ok (paged_state 25 3) H)
    as (_ & Hg & _ & _ & Hp).
  split; [exact Hg|]. apply Hp. vm_compute. split; discriminate.
Defined.

Lemma X6_display_after_city_info_witness :
  location_valid example_platform (query_state "Miami, Florida") = true
  /\ encodeURIComponent example_platform
       (location_city example_platform (query_state "Miami, Florida"))
     = Resolved (lit "Miami")
  /\ encodeURIComponent example_platform
       (location_state example_platform (query_state "Miami, Florida"))
     = Resolved (lit "Florida")
  /\ net_city net_unauthorized (cityInfoUrl (lit "Miami") (lit "Florida"))
     = Resolved {| status := 200%N; statusText := lit "OK"; json := Resolved miami |}
  /\ showsError (comp (snd (clickGetNews example_platform net_unauthorized
                              (query_state "Miami, Florida")))) = true
  /\ showsFallback (comp (snd (clickGetNews example_platform net_unauthorized
                                 (query_state "Miami, Florida")))) = true.
Proof.
  do 4 (split; [reflexivity|]).
  destruct (X6_display_after_city_info example_platform net_unauthorized
              (query_state "Miami, Florida") (lit "Miami") (lit "Florida")
              {| status := 200%N; statusText := lit "OK"; json := Resolved miami |} miami
              eq_refl eq_refl eq_refl eq_refl eq_refl eq_refl) as [_ H].
  exact (proj2 H).
Defined.

Lemma X7_error_excludes_articles_witness :
  location_valid example_platform (query_state "Miami, Florida") = true
  /\ showsArticles (comp (snd (clickGetNews example_platform net_ok
                                 (query_state "Miami, Florida"))))
       && showsError (comp (snd (clickGetNews example_platform net_ok
                                   (query_state "Miami, Florida")))) = false
  /\ location_valid example_platform initialState = false
  /\ showsFallback (comp (snd (clickGlobalNews net_ok initialState))) = false.
Proof.
  split; [reflexivity|]. split.
  - exact (proj1 (X7_error_excludes_articles example_platform net_ok
                    (query_state "Miami, Florida")) eq_refl).
  - split; [reflexivity|].
    exact (proj2 (proj2 (X7_error_excludes_articles example_platform net_ok initialState))).
Defined.

Lemma X8_text_after_second_comma_witness :
  location_valid example_platform (query_state "Miami, Florida") = true
  /\ matchedOption example_platform (lit "Miami, Florida") [] = None
  /\ matchedOption example_platform (lit "Miami, Florida" ++ comma :: lit " USA") [] = None
  /\ map call_url
       (calls (snd (clickGetNews example_platform net_ok
                      (with_searchQuery (lit "Miami, Florida" ++ comma :: lit " USA")
                         (query_state "Miami, Florida")))))
     = map call_url
         (calls (snd (clickGetNews example_platform net_ok (query_state "Miami, Florida")))).
Proof.
  do 3 (split; [reflexivity|]).
  exact (proj1 (X8_text_after_second_comma example_platform net_ok
                  (query_state "Miami, Florida") (lit " USA") eq_refl eq_refl eq_refl)).
Defined.

Lemma X9_canonical_location_witness :
  cityState example_platform (lit "miami, florida")
    [lit "Orlando, Florida"; lit "Miami, Florida"]
  = lit "Miami, Florida".
Proof.
  exact (proj2 (proj2 (proj2
    (X9_canonical_location example_platform (lit "miami, florida")
       [lit "Orlando, Florida"; lit "Miami, Florida"])))).
Defined.

Lemma X11_slice_any_page_witness :
  totalPages (paged_state 25 4) < currentPage (paged_state 25 4)
  /\ currentArticles (paged_state 25 4) = [].
Proof.
  assert (H : totalPages (paged_state 25 4) < currentPage (paged_state 25 4))
    by (vm_compute; reflexivity).
  split; [exact H|].
  exact (proj1 (proj2 (proj2 (X11_slice_any_page (paged_state 25 4)))) H).
Defined.
